(** * Nexgen BPO voice agent: shallow embedding of [main.py]

    The development follows the source file top to bottom:
    - Python string methods used by the code ([str.startswith], [str.lower],
      [str.strip], [str.split], [in]);
    - the module-level configuration read from the environment and the
      voice map loader [_load_voice_map];
    - [choose_voice_for_language];
    - a state-and-exception monad over a [world] (file system, log of
      network calls, count of uuid draws) in which the three provider
      wrappers, the [voice_agent] handler and the [contact_submit] handler
      are written;
    - [json.dump] with [indent=2] and [json.load] for the contact file.

    Text is modelled by Rocq strings: a Python [str] is a sequence of
    8-bit characters (code points U+0000..U+00FF). *)

From Stdlib Require Import Ascii String.
From stdpp Require Import base option list gmap strings pretty.

Set Warnings "-register-all".

(** ** Python [str] methods *)

Module Py.

(** [bool(s)] for a string: the empty string is falsy. *)
Definition truthy (s : string) : bool :=
  match s with
  | EmptyString => false
  | String _ _ => true
  end.

(** [s.startswith(p)] *)
Definition startswith (s p : string) : bool := String.prefix p s.

(** [s.endswith(p)] *)
Definition endswith (s p : string) : bool :=
  String.prefix (String.rev p) (String.rev s).

(** [s or d]: [s] unless it is empty. *)
Definition or_else (s d : string) : string := if truthy s then s else d.

(** [c in s] for a one-character string [c]. *)
Fixpoint contains (c : ascii) (s : string) : bool :=
  match s with
  | EmptyString => false
  | String a s' => if Ascii.eqb a c then true else contains c s'
  end.

(** [s.split(sep)] for a one-character separator: never empty. *)
Fixpoint split (sep : ascii) (s : string) : list string :=
  match s with
  | EmptyString => [EmptyString]
  | String a s' =>
      if Ascii.eqb a sep then EmptyString :: split sep s'
      else match split sep s' with
           | h :: t => String a h :: t
           | [] => [String a EmptyString]
           end
  end.

(** [s.split(sep, 1)]: at most one cut, at the first separator. *)
Fixpoint split1 (sep : ascii) (s : string) : list string :=
  match s with
  | EmptyString => [EmptyString]
  | String a s' =>
      if Ascii.eqb a sep then [EmptyString; s']
      else match split1 sep s' with
           | h :: t => String a h :: t
           | [] => [String a EmptyString]
           end
  end.

(** [l[i]] on a list of strings, where the index is known to exist. *)
Definition item (l : list string) (i : nat) : string := nth i l EmptyString.

(** The upper-case letters below U+0100: A to Z, and the accented
    capitals U+00C0..U+00DE without the multiplication sign U+00D7. *)
Definition is_upper (a : ascii) : bool :=
  let n := nat_of_ascii a in
  ((65 <=? n) && (n <=? 90))
  || ((192 <=? n) && (n <=? 222) && negb (n =? 215)).

Definition lower_char (a : ascii) : ascii :=
  if is_upper a then ascii_of_nat (nat_of_ascii a + 32) else a.

(** [s.lower()] *)
Fixpoint lower (s : string) : string :=
  match s with
  | EmptyString => EmptyString
  | String a s' => String (lower_char a) (lower s')
  end.

(** Some character of [s] is an upper-case letter. *)
Fixpoint has_upper (s : string) : bool :=
  match s with
  | EmptyString => false
  | String a s' => is_upper a || has_upper s'
  end.

(** [str.isspace] on one character: tab, newline, vertical tab, form feed,
    carriage return, the four separators U+001C..U+001F, space, next line
    U+0085 and no-break space U+00A0. *)
Definition is_space (a : ascii) : bool :=
  let n := nat_of_ascii a in
  ((9 <=? n) && (n <=? 13)) || ((28 <=? n) && (n <=? 32))
  || (n =? 133) || (n =? 160).

Fixpoint lstrip (s : string) : string :=
  match s with
  | EmptyString => EmptyString
  | String a s' => if is_space a then lstrip s' else s
  end.

(** [s.strip()] *)
Definition strip (s : string) : string :=
  String.rev (lstrip (String.rev (lstrip s))).

End Py.

(** ** Configuration loaded from the environment *)

(** [os.environ.items()]: the variables of the process, in iteration order. *)
Definition environ := list (string * string).

(** [os.getenv(k, d)] *)
Fixpoint getenv (env : environ) (k d : string) : string :=
  match env with
  | [] => d
  | (k', v) :: env' => if String.eqb k' k then v else getenv env' k d
  end.

(** The body of the loop of [_load_voice_map], for one variable. *)
Definition load_step (voices : gmap string string) (kv : string * string)
  : gmap string string :=
  let (k, v) := kv in
  if Py.startswith k "VOICE_" && Py.truthy v then
    let lang := Py.item (Py.split1 "_"%char k) 1 in
    <[lang := v]> voices
  else voices.

(** Load voice mapping from environment variables starting with VOICE_. *)
Definition _load_voice_map (env : environ) : gmap string string :=
  foldl load_step ∅ env.

(** The module-level constants of [main.py]. *)
Record config := {
  OPENAI_API_KEY : string;
  OPENAI_MODEL : string;
  ELEVENLABS_API_KEY : string;
  ELEVENLABS_VOICE_DEFAULT : string;
  VOICE_MAP : gmap string string
}.

Definition load_config (env : environ) : config := {|
  OPENAI_API_KEY := getenv env "OPENAI_API_KEY" "";
  OPENAI_MODEL := getenv env "OPENAI_MODEL" "gpt-4o-mini";
  ELEVENLABS_API_KEY := getenv env "ELEVENLABS_API_KEY" "";
  ELEVENLABS_VOICE_DEFAULT := getenv env "ELEVENLABS_VOICE" "Bella";
  VOICE_MAP := _load_voice_map env
|}.

Definition SUBMISSIONS_FILE : string := "submissions.json".

(** ** Voice selection *)

Definition choose_voice_for_language (cfg : config) (lang : string) : string :=
  if negb (Py.truthy lang) then ELEVENLABS_VOICE_DEFAULT cfg
  else match VOICE_MAP cfg !! lang with
       | Some voice => voice
       | None =>
           if Py.contains "-"%char lang then
             let prefix := Py.item (Py.split "-"%char lang) 0 in
             match VOICE_MAP cfg !! prefix with
             | Some voice => voice
             | None => ELEVENLABS_VOICE_DEFAULT cfg
             end
           else ELEVENLABS_VOICE_DEFAULT cfg
       end.

(** ** Exceptions and results *)

(** A raised Python exception: an ordinary [Exception] carrying its message,
    or the framework's [HTTPException]. Both are subclasses of [Exception],
    so [except Exception] catches either. *)
Inductive exn :=
| Exception (msg : string)
| HTTPException (status_code : nat) (detail : string).

(** [str(e)] *)
Definition str_exn (e : exn) : string :=
  match e with
  | Exception msg => msg
  | HTTPException code detail => pretty code +:+ ": " +:+ detail
  end.

Inductive result (A : Type) :=
| Ok (a : A)
| Raise (e : exn).
Arguments Ok {A} a.
Arguments Raise {A} e.

Global Instance result_ret : MRet result := fun A a => Ok a.

Global Instance result_bind : MBind result := fun A B k r =>
  match r with
  | Ok a => k a
  | Raise e => Raise e
  end.

Global Instance result_fmap : FMap result := fun A B f r =>
  match r with
  | Ok a => Ok (f a)
  | Raise e => Raise e
  end.

(** ** JSON values, [json.dump(..., indent=2)] and [json.load] *)

Module Json.

(** Numbers keep their literal text; objects keep their members in
    insertion order, as a Python [dict] does. *)
Inductive json :=
| JNull
| JBool (b : bool)
| JNum (lit : string)
| JStr (s : string)
| JArr (items : list json)
| JObj (members : list (string * json)).

Definition dquote : ascii := "034"%char.
Definition backslash : ascii := "092"%char.
Definition LF : ascii := "010"%char.

Definition hex_digit (n : nat) : ascii :=
  if n <? 10 then ascii_of_nat (48 + n) else ascii_of_nat (87 + n).

(** One character of [py_encode_basestring_ascii]: the short escapes of
    [ESCAPE_DCT], printable ASCII unchanged, everything else as a lower-case
    [\u00xx]. *)
Definition escape_char (a : ascii) : string :=
  let n := nat_of_ascii a in
  if n =? 34 then String backslash (String dquote "")
  else if n =? 92 then String backslash (String backslash "")
  else if n =? 10 then String backslash "n"
  else if n =? 13 then String backslash "r"
  else if n =? 9 then String backslash "t"
  else if n =? 8 then String backslash "b"
  else if n =? 12 then String backslash "f"
  else if (32 <=? n) && (n <=? 126) then String a ""
  else String backslash
         (String "u" (String "0" (String "0"
           (String (hex_digit (n / 16)) (String (hex_digit (n mod 16)) ""))))).

Fixpoint escape (s : string) : string :=
  match s with
  | EmptyString => EmptyString
  | String a s' => escape_char a +:+ escape s'
  end.

Definition encode_string (s : string) : string :=
  String dquote (escape s +:+ String dquote "").

Fixpoint spaces (n : nat) : string :=
  match n with
  | O => EmptyString
  | S n' => String " " (spaces n')
  end.

(** The line break and indentation written before an item at nesting depth
    [lvl]; nothing when [indent] is [None]. *)
Definition newline_indent (indent : option nat) (lvl : nat) : string :=
  match indent with
  | Some n => String LF (spaces (n * lvl))
  | None => EmptyString
  end.

(** The default item separator: a comma when [indent] is given, a comma
    and a space otherwise. *)
Definition item_separator (indent : option nat) : string :=
  match indent with
  | Some _ => ","
  | None => ", "
  end.

(** [json.dumps(v, indent=indent)] at nesting depth [lvl]; the key
    separator is a colon and a space. *)
Fixpoint encode (indent : option nat) (lvl : nat) (v : json) : string :=
  match v with
  | JNull => "null"
  | JBool true => "true"
  | JBool false => "false"
  | JNum lit => lit
  | JStr s => encode_string s
  | JArr [] => "[]"
  | JArr items =>
      "[" +:+ newline_indent indent (S lvl)
      +:+ String.concat (item_separator indent +:+ newline_indent indent (S lvl))
            (map (encode indent (S lvl)) items)
      +:+ newline_indent indent lvl +:+ "]"
  | JObj [] => "{}"
  | JObj members =>
      "{" +:+ newline_indent indent (S lvl)
      +:+ String.concat (item_separator indent +:+ newline_indent indent (S lvl))
            (map (fun kv : string * json =>
                    encode_string (fst kv) +:+ ": "
                    +:+ encode indent (S lvl) (snd kv))
                 members)
      +:+ newline_indent indent lvl +:+ "}"
  end.

Definition dumps (indent : option nat) (v : json) : string := encode indent 0 v.

(** *** Decoding *)

(** [json.JSONDecodeError] is an [Exception] (a [ValueError]); the message
    is kept without the position that Python adds after a colon. *)
Definition JSONDecodeError (msg : string) : exn := Exception msg.

(** The whitespace of [json.decoder]: space, tab, line feed, carriage
    return. *)
Definition is_ws (a : ascii) : bool :=
  let n := nat_of_ascii a in
  (n =? 32) || (n =? 9) || (n =? 10) || (n =? 13).

Fixpoint skip_ws (s : string) : string :=
  match s with
  | EmptyString => EmptyString
  | String a s' => if is_ws a then skip_ws s' else s
  end.

(** [eat c s] is the rest of [s] after its first character when that
    character is [c]. *)
Definition eat (c : ascii) (s : string) : option string :=
  match s with
  | EmptyString => None
  | String a r => if Ascii.eqb a c then Some r else None
  end.

Fixpoint eat_word (w s : string) : option string :=
  match w with
  | EmptyString => Some s
  | String c w' =>
      match eat c s with
      | Some r => eat_word w' r
      | None => None
      end
  end.

Definition hex_value (a : ascii) : option nat :=
  let n := nat_of_ascii a in
  if (48 <=? n) && (n <=? 57) then Some (n - 48)
  else if (97 <=? n) && (n <=? 102) then Some (n - 87)
  else if (65 <=? n) && (n <=? 70) then Some (n - 55)
  else None.

Definition decode_uXXXX (h1 h2 h3 h4 : ascii) : option nat :=
  a ← hex_value h1; b ← hex_value h2; c ← hex_value h3; d ← hex_value h4;
  Some (((a * 16 + b) * 16 + c) * 16 + d).

(** The [BACKSLASH] table of [json.decoder]. *)
Definition unescape (a : ascii) : option ascii :=
  let n := nat_of_ascii a in
  if n =? 34 then Some dquote
  else if n =? 92 then Some backslash
  else if n =? 47 then Some "/"%char
  else if n =? 98 then Some (ascii_of_nat 8)
  else if n =? 102 then Some (ascii_of_nat 12)
  else if n =? 110 then Some (ascii_of_nat 10)
  else if n =? 114 then Some (ascii_of_nat 13)
  else if n =? 116 then Some (ascii_of_nat 9)
  else None.

Definition cons_char (a : ascii) (p : string * string) : string * string :=
  (String a (fst p), snd p).

(** [py_scanstring] in strict mode, from just after the opening quote:
    the decoded string and the text after the closing quote. An escape
    [\uXXXX] above U+00FF has no character in this model of text and is
    reported as an error of its own. *)
Fixpoint scanstring (s : string) : result (string * string) :=
  match s with
  | EmptyString => Raise (JSONDecodeError "Unterminated string starting at")
  | String c s' =>
      if Ascii.eqb c dquote then Ok (EmptyString, s')
      else if Ascii.eqb c backslash then
        match s' with
        | EmptyString => Raise (JSONDecodeError "Unterminated string starting at")
        | String esc s'' =>
            if Ascii.eqb esc "u" then
              match s'' with
              | String h1 (String h2 (String h3 (String h4 r))) =>
                  match decode_uXXXX h1 h2 h3 h4 with
                  | Some uni =>
                      if uni <? 256 then cons_char (ascii_of_nat uni) <$> scanstring r
                      else Raise (Exception "code point above U+00FF")
                  | None => Raise (JSONDecodeError "Invalid \uXXXX escape")
                  end
              | _ => Raise (JSONDecodeError "Invalid \uXXXX escape")
              end
            else
              match unescape esc with
              | Some char => cons_char char <$> scanstring s''
              | None => Raise (JSONDecodeError "Invalid \escape")
              end
        end
      else if nat_of_ascii c <? 32 then
        Raise (JSONDecodeError "Invalid control character at")
      else cons_char c <$> scanstring s'
  end.

Definition is_digit (a : ascii) : bool :=
  (48 <=? nat_of_ascii a) && (nat_of_ascii a <=? 57).

Fixpoint span_digits (s : string) : string * string :=
  match s with
  | EmptyString => (EmptyString, EmptyString)
  | String a s' =>
      if is_digit a then cons_char a (span_digits s') else (EmptyString, s)
  end.

(** [NUMBER_RE]: an integer part, then an optional fraction, then an
    optional exponent; the literal matched and the text after it. *)
Definition match_integer (s : string) : option (string * string) :=
  let '(sign, s1) := match eat "-" s with
                     | Some r => ("-", r)
                     | None => (EmptyString, s)
                     end in
  match s1 with
  | EmptyString => None
  | String d r =>
      if Ascii.eqb d "0" then Some (sign +:+ "0", r)
      else if is_digit d then
        let '(ds, r') := span_digits r in Some (sign +:+ String d ds, r')
      else None
  end.

Definition match_frac (s : string) : string * string :=
  match eat "." s with
  | Some r =>
      let '(ds, r') := span_digits r in
      if Py.truthy ds then (String "." ds, r') else (EmptyString, s)
  | None => (EmptyString, s)
  end.

Definition match_exp (s : string) : string * string :=
  match s with
  | EmptyString => (EmptyString, s)
  | String e r =>
      if Ascii.eqb e "e" || Ascii.eqb e "E" then
        let '(sign, r1) :=
          match r with
          | EmptyString => (EmptyString, r)
          | String g r' =>
              if Ascii.eqb g "-" || Ascii.eqb g "+"
              then (String g EmptyString, r') else (EmptyString, r)
          end in
        let '(ds, r2) := span_digits r1 in
        if Py.truthy ds then (String e (sign +:+ ds), r2) else (EmptyString, s)
      else (EmptyString, s)
  end.

Definition match_number (s : string) : option (string * string) :=
  '(int, r) ← match_integer s;
  let '(frac, r1) := match_frac r in
  let '(exp, r2) := match_exp r1 in
  Some (int +:+ frac +:+ exp, r2).

(** [d[k] = v] on a dictionary kept as an ordered list of members. *)
Fixpoint dict_set (k : string) (v : json) (d : list (string * json))
  : list (string * json) :=
  match d with
  | [] => [(k, v)]
  | (k', v') :: d' =>
      if String.eqb k' k then (k, v) :: d' else (k', v') :: dict_set k v d'
  end.

(** [dict(pairs)] *)
Definition dict (pairs : list (string * json)) : list (string * json) :=
  foldl (fun d kv => dict_set (fst kv) (snd kv) d) [] pairs.

Definition RecursionError : exn :=
  Exception "maximum recursion depth exceeded".

(** [scan_once], [JSONArray] and [JSONObject] of [json.scanner] and
    [json.decoder]. [fuel] bounds the number of nested calls; [array_loop]
    starts at a value, [object_loop] just after the opening quote of a
    key. *)
Fixpoint scan_once (fuel : nat) (s : string) {struct fuel}
  : result (json * string) :=
  match fuel with
  | O => Raise RecursionError
  | S fuel' =>
      match s with
      | EmptyString => Raise (JSONDecodeError "Expecting value")
      | String c s' =>
          if Ascii.eqb c dquote then
            '(str, r) ← scanstring s'; Ok (JStr str, r)
          else if Ascii.eqb c "{" then
            let s1 := skip_ws s' in
            match eat "}" s1 with
            | Some r => Ok (JObj [], r)
            | None =>
                match eat dquote s1 with
                | Some r => object_loop fuel' [] r
                | None =>
                    Raise (JSONDecodeError
                      "Expecting property name enclosed in double quotes")
                end
            end
          else if Ascii.eqb c "[" then
            let s1 := skip_ws s' in
            match eat "]" s1 with
            | Some r => Ok (JArr [], r)
            | None => array_loop fuel' [] s1
            end
          else
            match eat_word "null" s, eat_word "true" s, eat_word "false" s with
            | Some r, _, _ => Ok (JNull, r)
            | _, Some r, _ => Ok (JBool true, r)
            | _, _, Some r => Ok (JBool false, r)
            | None, None, None =>
                match match_number s with
                | Some (lit, r) => Ok (JNum lit, r)
                | None =>
                    match eat_word "NaN" s, eat_word "Infinity" s,
                          eat_word "-Infinity" s with
                    | Some r, _, _ => Ok (JNum "NaN", r)
                    | _, Some r, _ => Ok (JNum "Infinity", r)
                    | _, _, Some r => Ok (JNum "-Infinity", r)
                    | None, None, None =>
                        Raise (JSONDecodeError "Expecting value")
                    end
                end
            end
      end
  end

with array_loop (fuel : nat) (values : list json) (s : string) {struct fuel}
  : result (json * string) :=
  match fuel with
  | O => Raise RecursionError
  | S fuel' =>
      '(value, r) ← scan_once fuel' s;
      let values := values ++ [value] in
      let r1 := skip_ws r in
      match eat "]" r1 with
      | Some r2 => Ok (JArr values, r2)
      | None =>
          match eat "," r1 with
          | Some r2 => array_loop fuel' values (skip_ws r2)
          | None => Raise (JSONDecodeError "Expecting ',' delimiter")
          end
      end
  end

with object_loop (fuel : nat) (pairs : list (string * json)) (s : string)
  {struct fuel} : result (json * string) :=
  match fuel with
  | O => Raise RecursionError
  | S fuel' =>
      '(key, r) ← scanstring s;
      match eat ":" (skip_ws r) with
      | None => Raise (JSONDecodeError "Expecting ':' delimiter")
      | Some r1 =>
          '(value, r2) ← scan_once fuel' (skip_ws r1);
          let pairs := pairs ++ [(key, value)] in
          let r3 := skip_ws r2 in
          match eat "}" r3 with
          | Some r4 => Ok (JObj (dict pairs), r4)
          | None =>
              match eat "," r3 with
              | None => Raise (JSONDecodeError "Expecting ',' delimiter")
              | Some r4 =>
                  match eat dquote (skip_ws r4) with
                  | Some r5 => object_loop fuel' pairs r5
                  | None =>
                      Raise (JSONDecodeError
                        "Expecting property name enclosed in double quotes")
                  end
              end
          end
      end
  end.

(** [json.loads(s)]: leading whitespace, one value, trailing whitespace.
    The fuel exceeds the length of the text, and every nested call consumes
    a character, so the fuel is never used up; the interpreter's own
    recursion limit is not modelled. *)
Definition loads (s : string) : result json :=
  '(obj, r) ← scan_once (S (String.length s)) (skip_ws s);
  if Py.truthy (skip_ws r) then Raise (JSONDecodeError "Extra data")
  else Ok obj.

(** Writes [s] with every apostrophe turned into a double quote, so that
    JSON text can be given as a literal. *)
Fixpoint quoted (s : string) : string :=
  match s with
  | EmptyString => EmptyString
  | String a s' =>
      String (if Ascii.eqb a "'" then dquote else a) (quoted s')
  end.

End Json.

Import Json.

(** ** The world of a request: files, network calls, random draws *)

(** A streamed HTTP response: the status, the chunks that [iter_content]
    yields, and the failure that ends the stream early, if any. *)
Record response := {
  status_code : nat;
  iter_content : list string;
  stream_error : option exn
}.

(** A chat message: role and content. *)
Definition chat_message : Type := string * string.

(** What the process cannot control: the random source behind
    [uuid.uuid4]; the message of the [OSError] with which the operating
    system refuses to open, create or remove a path, if it does (no
    permission, a name that is too long, ...); the largest size a file may
    reach on the device, if bounded; and the three external providers,
    each a function of the request it is sent. *)
Record platform := {
  uuid4_hex : nat -> string;
  open_error : string -> option string;
  disk_room : option nat;
  openai_Audio_transcribe :
    string -> string -> string -> result (gmap string string);
  openai_ChatCompletion_create :
    string -> list chat_message -> nat -> result (list string);
  requests_post :
    string -> list (string * string) -> json -> nat -> result response
}.

Inductive net_call :=
| CallTranscribe (model audio language : string)
| CallChat (model : string) (messages : list chat_message) (max_tokens : nat)
| CallPost (url : string) (headers : list (string * string)) (body : json)
           (timeout : nat).

Record world := {
  files : gmap string string;
  net : list net_call;
  draws : nat
}.

Definition set_files (fs : gmap string string) (w : world) : world :=
  {| files := fs; net := net w; draws := draws w |}.

Definition log_call (c : net_call) (w : world) : world :=
  {| files := files w; net := net w ++ [c]; draws := draws w |}.

Definition next_draw (w : world) : world :=
  {| files := files w; net := net w; draws := S (draws w) |}.

(** ** Computations that read and write the world and may raise *)

Definition M (A : Type) : Type := world -> result A * world.

Global Instance M_ret : MRet M := fun A a w => (Ok a, w).

Global Instance M_bind : MBind M := fun A B k m w =>
  match m w with
  | (Ok a, w') => k a w'
  | (Raise e, w') => (Raise e, w')
  end.

Definition raise {A} (e : exn) : M A := fun w => (Raise e, w).

(** [try: body except Exception as e: handler(e)] *)
Definition try_except {A} (body : M A) (handler : exn -> M A) : M A :=
  fun w =>
    match body w with
    | (Ok a, w') => (Ok a, w')
    | (Raise e, w') => handler e w'
    end.

(** A pure computation that may raise, run inside [M]. *)
Definition lift {A} (r : result A) : M A := fun w => (r, w).

(** The status of the HTTP response the framework sends for a handler:
    200 for a returned [JSONResponse], the status of a raised
    [HTTPException], 500 for any other exception. *)
Definition http_status {A} (r : result A) : nat :=
  match r with
  | Ok _ => 200
  | Raise (HTTPException code _) => code
  | Raise (Exception _) => 500
  end.

(** ** Files *)

Fixpoint str_take (n : nat) (s : string) : string :=
  match n, s with
  | S n', String a s' => String a (str_take n' s')
  | _, _ => EmptyString
  end.

Fixpoint str_drop (n : nat) (s : string) : string :=
  match n, s with
  | S n', String _ s' => str_drop n' s'
  | _, _ => s
  end.

Inductive mode := RB | WB | W | RPlus.

(** An open file object: its path and its position. *)
Record file := { f_path : string; f_pos : nat }.

Definition FileNotFoundError (path : string) : exn :=
  Exception ("[Errno 2] No such file or directory: '" +:+ path +:+ "'").
Definition OSError (msg : string) : exn := Exception msg.
Definition permission_denied (path : string) : string :=
  "[Errno 13] Permission denied: '" +:+ path +:+ "'".
Definition name_too_long (path : string) : string :=
  "[Errno 36] File name too long: '" +:+ path +:+ "'".
Definition NoSpaceError : exn :=
  Exception "[Errno 28] No space left on device".

(** The operating system lets the process open [path]. *)
Definition may_open (P : platform) (path : string) : bool :=
  match open_error P path with
  | None => true
  | Some _ => false
  end.

Section Runtime.

Variable P : platform.
Variable cfg : config.

(** [open(path, mode)]: the reading modes need the file to exist, the
    writing modes create it or empty it; in every mode the operating system
    may refuse. *)
Definition open_ (path : string) (m : mode) : M file := fun w =>
  match open_error P path with
  | Some msg => (Raise (OSError msg), w)
  | None =>
      match m with
      | RB | RPlus =>
          match files w !! path with
          | Some _ => (Ok {| f_path := path; f_pos := 0 |}, w)
          | None => (Raise (FileNotFoundError path), w)
          end
      | WB | W =>
          (Ok {| f_path := path; f_pos := 0 |},
           set_files (<[path := EmptyString]> (files w)) w)
      end
  end.

(** What [f.read()] returns: the content from the position to the end. *)
Definition content_from (f : file) (w : world) : string :=
  str_drop (f_pos f) (default EmptyString (files w !! f_path f)).

(** [f.read()] *)
Definition f_read (f : file) : M (string * file) := fun w =>
  let old := default EmptyString (files w !! f_path f) in
  (Ok (str_drop (f_pos f) old,
       {| f_path := f_path f; f_pos := String.length old |}), w).

(** [f.seek(pos)] *)
Definition f_seek (f : file) (pos : nat) : file :=
  {| f_path := f_path f; f_pos := pos |}.

(** [f.write(data)]: [data] replaces the bytes from the position on and
    what lies beyond it stays; nothing is cut off. When the file would
    outgrow the room on the device, the bytes that fit are kept and the
    write raises. *)
Definition f_write (f : file) (data : string) : M file := fun w =>
  let old := default EmptyString (files w !! f_path f) in
  let new := str_take (f_pos f) old +:+ data
             +:+ str_drop (f_pos f + String.length data) old in
  match disk_room P with
  | Some room =>
      if room <? String.length new then
        (Raise NoSpaceError,
         set_files (<[f_path f := str_take room new]> (files w)) w)
      else
        (Ok {| f_path := f_path f; f_pos := f_pos f + String.length data |},
         set_files (<[f_path f := new]> (files w)) w)
  | None =>
      (Ok {| f_path := f_path f; f_pos := f_pos f + String.length data |},
       set_files (<[f_path f := new]> (files w)) w)
  end.

(** [os.path.exists(path)] *)
Definition os_path_exists (path : string) : M bool := fun w =>
  (Ok (bool_decide (is_Some (files w !! path))), w).

(** [os.remove(path)] *)
Definition os_remove (path : string) : M unit := fun w =>
  match files w !! path with
  | None => (Raise (FileNotFoundError path), w)
  | Some _ =>
      match open_error P path with
      | None => (Ok tt, set_files (delete path (files w)) w)
      | Some msg => (Raise (OSError msg), w)
      end
  end.

(** [uuid.uuid4().hex] *)
Definition uuid4_hex_ : M string := fun w =>
  (Ok (uuid4_hex P (draws w)), next_draw w).

(** ** Paths *)

(** [s.rfind(c)]: the index of the last [c] in [s], or -1. *)
Fixpoint rfind_from (c : ascii) (s : string) (i found : Z) : Z :=
  match s with
  | EmptyString => found
  | String a s' =>
      rfind_from c s' (i + 1)%Z (if Ascii.eqb a c then i else found)
  end.

Definition rfind (c : ascii) (s : string) : Z := rfind_from c s 0%Z (-1)%Z.

(** The loop of [genericpath._splitext] that skips the leading dots of the
    file name, with [n] iterations left. *)
Fixpoint splitext_loop (p : string) (n filenameIndex dotIndex : nat)
  : option (string * string) :=
  match n with
  | O => None
  | S n' =>
      if filenameIndex <? dotIndex then
        if negb (String.eqb (String.substring filenameIndex 1 p) ".")
        then Some (str_take dotIndex p, str_drop dotIndex p)
        else splitext_loop p n' (S filenameIndex) dotIndex
      else None
  end.

(** [os.path.splitext(p)] *)
Definition os_path_splitext (p : string) : string * string :=
  let sepIndex := rfind "/" p in
  let dotIndex := rfind "." p in
  if (sepIndex <? dotIndex)%Z then
    match splitext_loop p (String.length p)
            (Z.to_nat (sepIndex + 1)) (Z.to_nat dotIndex) with
    | Some r => r
    | None => (p, EmptyString)
    end
  else (p, EmptyString).

(** [os.path.basename(p)] *)
Definition os_path_basename (p : string) : string :=
  str_drop (Z.to_nat (rfind "/" p + 1)) p.

(** [os.path.join(a, b)] *)
Definition os_path_join (a b : string) : string :=
  if Py.startswith b "/" then b
  else if negb (Py.truthy a) || Py.endswith a "/" then a +:+ b
  else a +:+ "/" +:+ b.

(** ** Provider wrapper functions *)

(** [openai.Audio.transcribe(model, audio_file, language=language)]: the
    provider is sent what the file holds from its position on. *)
Definition Audio_transcribe (model : string) (audio_file : file)
  (language : string) : M (gmap string string) := fun w =>
  let audio := content_from audio_file w in
  (openai_Audio_transcribe P model audio language,
   log_call (CallTranscribe model audio language) w).

(** [openai.ChatCompletion.create(model=..., messages=..., max_tokens=...)]:
    the answer is the list of the contents of its choices. *)
Definition ChatCompletion_create (model : string) (messages : list chat_message)
  (max_tokens : nat) : M (list string) := fun w =>
  (openai_ChatCompletion_create P model messages max_tokens,
   log_call (CallChat model messages max_tokens) w).

(** [requests.post(url, headers=..., json=..., stream=True, timeout=...)] *)
Definition requests_post_ (url : string) (headers : list (string * string))
  (payload : json) (timeout : nat) : M response := fun w =>
  (requests_post P url headers payload timeout,
   log_call (CallPost url headers payload timeout) w).

(** [choices[0]] *)
Definition first_choice (choices : list string) : result string :=
  match choices with
  | c :: _ => Ok c
  | [] => Raise (Exception "list index out of range")
  end.

Definition run_asr_local (file_path language : string) : M string :=
  if negb (Py.truthy (OPENAI_API_KEY cfg)) then
    mret "[ASR not configured - set OPENAI_API_KEY]"
  else
    try_except
      (audio_file ← open_ file_path RB;
       resp ← Audio_transcribe "whisper-1" audio_file language;
       mret (default EmptyString (resp !! "text")))
      (fun e => mret ("[ASR error: " +:+ str_exn e +:+ "]")).

Definition run_llm_local (transcript language : string) : M string :=
  if negb (Py.truthy (OPENAI_API_KEY cfg)) then
    mret "[LLM not configured - set OPENAI_API_KEY]"
  else
    try_except
      (let system_msg : chat_message :=
         ("system",
          "You are a helpful voice assistant for Nexgen BPO. "
          +:+ "Always reply in the same language as the user. If the user language is '"
          +:+ language +:+ "', "
          +:+ "respond in that language. Keep responses concise and professional.") in
       let user_msg : chat_message :=
         ("user", "User said (transcript): " +:+ transcript) in
       chat ← ChatCompletion_create (OPENAI_MODEL cfg) [system_msg; user_msg] 500;
       content ← lift (first_choice chat);
       mret (Py.strip content))
      (fun e => mret ("[LLM error: " +:+ str_exn e +:+ "]")).

(** The loop over [r.iter_content(chunk_size=8192)]: every non-empty chunk
    is written; a failure of the stream is raised where it occurs, after
    the chunks that came before it. *)
Fixpoint write_chunks (f : file) (chunks : list string) (err : option exn)
  : M file :=
  match chunks with
  | [] =>
      match err with
      | Some e => raise e
      | None => mret f
      end
  | chunk :: chunks' =>
      f' ← (if Py.truthy chunk then f_write f chunk else mret f);
      write_chunks f' chunks' err
  end.

Definition run_tts_elevenlabs (text voice out_path : string) : M bool :=
  if negb (Py.truthy (ELEVENLABS_API_KEY cfg)) then mret false
  else
    try_except
      (let url := "https://api.elevenlabs.io/v1/text-to-speech/" +:+ voice in
       let headers := [("xi-api-key", ELEVENLABS_API_KEY cfg);
                       ("Content-Type", "application/json")] in
       let payload :=
         JObj [("text", JStr text);
               ("voice_settings",
                JObj [("stability", JNum "0.4");
                      ("similarity_boost", JNum "0.75")])] in
       r ← requests_post_ url headers payload 60;
       if status_code r =? 200 then
         f ← open_ out_path WB;
         _ ← write_chunks f (iter_content r) (stream_error r);
         mret true
       else mret false)
      (fun _ => mret false).

(** ** The voice agent *)

Record VoiceAgentResult := {
  transcript : string;
  response_text : string;
  tts_audio_url : option string
}.

(** [POST /voice-agent]: [filename] and [audio_bytes] are the uploaded
    file, [language] the optional form field. *)
Definition voice_agent (filename audio_bytes : string)
  (language : option string) : M VoiceAgentResult :=
  let suffix := Py.or_else (snd (os_path_splitext filename)) ".wav" in
  hex ← uuid4_hex_;
  let tmp_name := "/tmp/" +:+ hex +:+ suffix in
  tmpf ← open_ tmp_name WB;
  _ ← f_write tmpf audio_bytes;

  let lang := Py.lower (Py.or_else (default EmptyString language) "en") in

  transcript ← run_asr_local tmp_name lang;

  llm_response ←
    (if Py.truthy transcript
        && negb (Py.startswith transcript "[ASR error")
        && negb (Py.startswith transcript "[ASR not configured")
     then run_llm_local transcript lang
     else mret "[LLM unavailable due to ASR error or missing config]");

  let chosen_voice := choose_voice_for_language cfg lang in
  hex' ← uuid4_hex_;
  let out_filename := "generated_" +:+ hex' +:+ ".mp3" in
  let out_path := os_path_join "static" out_filename in
  tts_ok ← run_tts_elevenlabs llm_response chosen_voice out_path;
  let tts_url := if tts_ok : bool then Some ("/static/" +:+ out_filename) else None in

  _ ← try_except (os_remove tmp_name) (fun _ => mret tt);

  mret {| transcript := transcript;
          response_text := llm_response;
          tts_audio_url := tts_url |}.

(** ** The contact store *)

(** [data.append(entry)]: only a list has the method. *)
Definition py_append (data entry : json) : result json :=
  match data with
  | JArr items => Ok (JArr (items ++ [entry]))
  | JObj _ => Raise (Exception "'dict' object has no attribute 'append'")
  | JStr _ => Raise (Exception "'str' object has no attribute 'append'")
  | JNum _ => Raise (Exception "'int' object has no attribute 'append'")
  | JBool _ => Raise (Exception "'bool' object has no attribute 'append'")
  | JNull => Raise (Exception "'NoneType' object has no attribute 'append'")
  end.

Definition opt_str (o : option string) : json :=
  match o with
  | Some s => JStr s
  | None => JNull
  end.

(** The record built from the form fields of a submission. *)
Definition contact_entry (name email : string) (plan message : option string)
  : json :=
  JObj [("name", JStr name); ("email", JStr email);
        ("plan", opt_str plan); ("message", opt_str message)].

(** [POST /contact] *)
Definition contact_submit (name email : string) (plan message : option string)
  : M json :=
  let entry := contact_entry name email plan message in
  try_except
    (f ← open_ SUBMISSIONS_FILE RPlus;
     '(text, f) ← f_read f;
     data ← lift (Json.loads text);
     data ← lift (py_append data entry);
     let f := f_seek f 0 in
     _ ← f_write f (Json.dumps (Some 2) data);
     mret (JObj [("status", JStr "ok"); ("detail", JStr "Submission received")]))
    (fun e => raise (HTTPException 500 (str_exn e))).

(** The start of the process: the submissions file is created, holding the
    empty array, unless it exists. (Directories are not part of the world,
    so [os.makedirs] has no counterpart.) *)
Definition ensure_submissions_file : M unit :=
  found ← os_path_exists SUBMISSIONS_FILE;
  if negb found then
    f ← open_ SUBMISSIONS_FILE W;
    _ ← f_write f (Json.dumps None (JArr []));
    mret tt
  else mret tt.

End Runtime.

(** ** Observations used in the statements *)

(** The [Contact] model of the source: a stored submission. *)
Record Contact := {
  name : string;
  email : string;
  plan : option string;
  message : option string
}.

Definition to_json (c : Contact) : json :=
  contact_entry (name c) (email c) (plan c) (message c).

(** [POST /contact] with the fields of [c]. *)
Definition submit (P : platform) (c : Contact) : M json :=
  contact_submit P (name c) (email c) (plan c) (message c).

(** The text of the submissions file when it holds the records [l] as the
    handler writes them. *)
Definition stored (l : list Contact) : string :=
  Json.dumps (Some 2) (JArr (map to_json l)).

Definition store_holds (w : world) (l : list Contact) : Prop :=
  files w !! SUBMISSIONS_FILE = Some (stored l).

(** The stored array: what [json.load] reads from the submissions file. *)
Definition stored_array (w : world) : result json :=
  match files w !! SUBMISSIONS_FILE with
  | Some text => Json.loads text
  | None => Raise (FileNotFoundError SUBMISSIONS_FILE)
  end.

(** The body of the response to an accepted submission. *)
Definition submission_received : json :=
  JObj [("status", JStr "ok"); ("detail", JStr "Submission received")].

(** A file of [data] does not outgrow the device. *)
Definition fits (P : platform) (data : string) : bool :=
  match disk_room P with
  | Some room => String.length data <=? room
  | None => true
  end.

(** The temporary file of a voice request received in world [w]. *)
Definition tmp_name_of (P : platform) (filename : string) (w : world) : string :=
  "/tmp/" +:+ uuid4_hex P (draws w)
  +:+ Py.or_else (snd (os_path_splitext filename)) ".wav".

(** The output file name of a voice request received in world [w]: the
    second draw of the request. *)
Definition out_filename_of (P : platform) (w : world) : string :=
  "generated_" +:+ uuid4_hex P (S (draws w)) +:+ ".mp3".

(** The upload can be written to its temporary file. *)
Definition upload_ok (P : platform) (filename audio_bytes : string) (w : world)
  : bool :=
  may_open P (tmp_name_of P filename w) && fits P audio_bytes.

(** The world once the upload is written. *)
Definition after_upload (P : platform) (filename audio_bytes : string)
  (w : world) : world :=
  set_files (<[tmp_name_of P filename w := audio_bytes]> (files w)) (next_draw w).

(** The normalised language tag of a voice request. *)
Definition lang_of (language : option string) : string :=
  Py.lower (Py.or_else (default EmptyString language) "en").

(** The guard of the LLM step. *)
Definition asr_usable (transcript : string) : bool :=
  Py.truthy transcript
  && negb (Py.startswith transcript "[ASR error")
  && negb (Py.startswith transcript "[ASR not configured").

(** The configuration with every voice whose key has an upper-case letter
    removed from the voice map. *)
Definition without_upper_keys (cfg : config) : config := {|
  OPENAI_API_KEY := OPENAI_API_KEY cfg;
  OPENAI_MODEL := OPENAI_MODEL cfg;
  ELEVENLABS_API_KEY := ELEVENLABS_API_KEY cfg;
  ELEVENLABS_VOICE_DEFAULT := ELEVENLABS_VOICE_DEFAULT cfg;
  VOICE_MAP :=
    filter (fun kv : string * string => Py.has_upper (fst kv) = false)
           (VOICE_MAP cfg)
|}.

(** The body of a streamed response: its chunks, one after the other. *)
Definition body_of (r : response) : string :=
  foldr String.append EmptyString (iter_content r).

(** The request that [run_tts_elevenlabs] sends for [text] and [voice]. *)
Definition tts_request (P : platform) (cfg : config) (text voice : string)
  : result response :=
  requests_post P
    ("https://api.elevenlabs.io/v1/text-to-speech/" +:+ voice)
    [("xi-api-key", ELEVENLABS_API_KEY cfg);
     ("Content-Type", "application/json")]
    (JObj [("text", JStr text);
           ("voice_settings",
            JObj [("stability", JNum "0.4");
                  ("similarity_boost", JNum "0.75")])])
    60.

(** No call to the speech-synthesis provider is in the log. *)
Definition no_post (calls : list net_call) : Prop :=
  forall url headers body timeout,
    CallPost url headers body timeout ∉ calls.

(** The messages that [run_llm_local] sends. *)
Definition system_content (language : string) : string :=
  "You are a helpful voice assistant for Nexgen BPO. "
  +:+ "Always reply in the same language as the user. If the user language is '"
  +:+ language +:+ "', "
  +:+ "respond in that language. Keep responses concise and professional.".

Definition chat_messages (transcript language : string) : list chat_message :=
  [("system", system_content language);
   ("user", "User said (transcript): " +:+ transcript)].

(** The call that [run_tts_elevenlabs] logs. *)
Definition tts_call (cfg : config) (text voice : string) : net_call :=
  CallPost ("https://api.elevenlabs.io/v1/text-to-speech/" +:+ voice)
    [("xi-api-key", ELEVENLABS_API_KEY cfg);
     ("Content-Type", "application/json")]
    (JObj [("text", JStr text);
           ("voice_settings",
            JObj [("stability", JNum "0.4");
                  ("similarity_boost", JNum "0.75")])])
    60.

(** The step of [voice_agent] between recognition and synthesis. *)
Definition llm_step (P : platform) (cfg : config) (transcript lang : string)
  : M string :=
  if asr_usable transcript then run_llm_local P cfg transcript lang
  else mret "[LLM unavailable due to ASR error or missing config]".

(** The exception that [contact_submit] raises for a failure [e]. *)
Definition server_error (e : exn) : exn := HTTPException 500 (str_exn e).

(** ** Text layouts used in the proofs about [json.load] *)

(** [reads_from n lvl v]: the text written for [v] at depth [lvl] starts
    with no whitespace and is read back as [v] by any run of [scan_once]
    with at least [n] units of fuel, whatever follows it. *)
Definition reads_from (n lvl : nat) (v : json) : Prop :=
  forall (fuel : nat) (k : string), n <= fuel ->
    skip_ws (encode (Some 2) lvl v +:+ k) = encode (Some 2) lvl v +:+ k
    /\ scan_once fuel (encode (Some 2) lvl v +:+ k) = Ok (v, k).

Definition member_text (lvl : nat) (kv : string * json) : string :=
  encode_string (fst kv) +:+ ": " +:+ encode (Some 2) (S lvl) (snd kv).

Definition member_sep (lvl : nat) : string :=
  "," +:+ newline_indent (Some 2) (S lvl).

(** The members of an object from just after the opening quote of the
    first key, followed by [k]. *)
Fixpoint members_tail (lvl : nat) (m : string * json)
  (ms : list (string * json)) (k : string) : string :=
  escape (fst m) +:+ String dquote
    (": " +:+ encode (Some 2) (S lvl) (snd m)
     +:+ match ms with
         | [] => k
         | m' :: ms' =>
             member_sep lvl +:+ String dquote (members_tail lvl m' ms' k)
         end).

Definition item_text (lvl : nat) (v : json) : string :=
  encode (Some 2) (S lvl) v.

Definition item_sep (lvl : nat) : string :=
  "," +:+ newline_indent (Some 2) (S lvl).

(** The items of an array from the first one on, followed by [k]. *)
Fixpoint items_tail (lvl : nat) (v : json) (vs : list json) (k : string)
  : string :=
  encode (Some 2) (S lvl) v
  +:+ match vs with
      | [] => k
      | v' :: vs' => item_sep lvl +:+ items_tail lvl v' vs' k
      end.

Definition record_text (c : Contact) : string := encode (Some 2) 1 (to_json c).

Definition record_sep : string := "," +:+ newline_indent (Some 2) 1.

(** ** Sample platforms and worlds *)

Module Sample.

Definition hex (n : nat) : string :=
  "0000000000000000000000000000000" +:+ pretty n.

(** Every provider answers. *)
Definition P_up : platform := {|
  uuid4_hex := hex;
  open_error := fun _ => None;
  disk_room := None;
  openai_Audio_transcribe := fun _ audio _ => Ok {[ "text" := "hola" ]};
  openai_ChatCompletion_create := fun _ _ _ => Ok ["  Buenos dias.  "];
  requests_post := fun _ _ _ _ =>
    Ok {| status_code := 200; iter_content := ["ID3"; ""; "mp3"];
          stream_error := None |}
|}.

(** Every provider fails. *)
Definition P_down : platform := {|
  uuid4_hex := hex;
  open_error := fun _ => None;
  disk_room := None;
  openai_Audio_transcribe := fun _ _ _ => Raise (Exception "Connection refused");
  openai_ChatCompletion_create := fun _ _ _ => Raise (Exception "Rate limit reached");
  requests_post := fun _ _ _ _ => Raise (Exception "Read timed out")
|}.

(** The speech-synthesis provider answers 401. *)
Definition P_401 : platform := {|
  uuid4_hex := hex;
  open_error := fun _ => None;
  disk_room := None;
  openai_Audio_transcribe := fun _ audio _ => Ok {[ "text" := "hola" ]};
  openai_ChatCompletion_create := fun _ _ _ => Ok [];
  requests_post := fun _ _ _ _ =>
    Ok {| status_code := 401; iter_content := ["Unauthorized"];
          stream_error := None |}
|}.

(** The process may not write under [/tmp]. *)
Definition P_tmp_denied : platform := {|
  uuid4_hex := hex;
  open_error := fun path =>
    if Py.startswith path "/tmp/" then Some (permission_denied path) else None;
  disk_room := None;
  openai_Audio_transcribe := fun _ audio _ => Ok {[ "text" := "hola" ]};
  openai_ChatCompletion_create := fun _ _ _ => Ok ["  Buenos dias.  "];
  requests_post := fun _ _ _ _ =>
    Ok {| status_code := 200; iter_content := ["ID3"]; stream_error := None |}
|}.

(** A POSIX file system: a file name of more than 255 bytes is refused. *)
Definition P_posix : platform := {|
  uuid4_hex := hex;
  open_error := fun path =>
    if 255 <? String.length (os_path_basename path) then
      Some (name_too_long path)
    else None;
  disk_room := None;
  openai_Audio_transcribe := fun _ audio _ => Ok {[ "text" := "hola" ]};
  openai_ChatCompletion_create := fun _ _ _ => Ok ["  Buenos dias.  "];
  requests_post := fun _ _ _ _ =>
    Ok {| status_code := 200; iter_content := ["ID3"]; stream_error := None |}
|}.

Fixpoint repeat_x (n : nat) : string :=
  match n with
  | O => EmptyString
  | S n' => String "x" (repeat_x n')
  end.

(** An upload whose file name has an extension of three hundred letters. *)
Definition long_filename : string := "clip." +:+ repeat_x 300.

(** The device holds files of at most sixteen bytes. *)
Definition P_full : platform := {|
  uuid4_hex := hex;
  open_error := fun _ => None;
  disk_room := Some 16;
  openai_Audio_transcribe := fun _ audio _ => Ok {[ "text" := "hola" ]};
  openai_ChatCompletion_create := fun _ _ _ => Ok ["  Buenos dias.  "];
  requests_post := fun _ _ _ _ =>
    Ok {| status_code := 200; iter_content := ["ID3"]; stream_error := None |}
|}.

Definition w_empty : world := {| files := ∅; net := []; draws := 0 |}.

(** The world right after start-up: the submissions file holds [[]]. *)
Definition w_started : world := snd (ensure_submissions_file P_up w_empty).

(** A submissions file that is not JSON. *)
Definition w_garbled : world :=
  {| files := {[ SUBMISSIONS_FILE := "not json" ]}; net := []; draws := 0 |}.

(** A submissions file that holds the empty array, laid out by hand with
    two hundred spaces between the brackets. *)
Definition w_padded : world :=
  {| files := {[ SUBMISSIONS_FILE := "[" +:+ Json.spaces 200 +:+ "]" ]};
     net := []; draws := 0 |}.

(** A submissions file that holds an object, not an array. *)
Definition w_object : world :=
  {| files := {[ SUBMISSIONS_FILE := "{}" ]}; net := []; draws := 0 |}.

Definition cfg_none : config := load_config [].

Definition cfg_keys : config :=
  load_config [("OPENAI_API_KEY", "sk-test"); ("ELEVENLABS_API_KEY", "xi-test")].

Definition env_voices : environ :=
  [("OPENAI_API_KEY", "sk-test"); ("ELEVENLABS_API_KEY", "xi-test");
   ("VOICE_en", "Adam"); ("VOICE_en-US", "Rachel"); ("VOICE_ES", "Lola")].

Definition cfg_voices : config := load_config env_voices.

Definition ana : Contact :=
  {| name := "Ana"; email := "a@x.com"; plan := None; message := None |}.

Definition bo : Contact :=
  {| name := "Bo"; email := "b@x.com"; plan := Some "pro";
     message := Some "call me" |}.

End Sample.

(** ** Further observations *)

(** The extension given to the temporary file of an upload. *)
Definition upload_suffix (filename : string) : string :=
  Py.or_else (snd (os_path_splitext filename)) ".wav".

(** What the speech-recognition wrapper returns for the bytes [audio] and
    the language [lang]. *)
Definition asr_outcome (P : platform) (cfg : config) (audio lang : string)
  : string :=
  if Py.truthy (OPENAI_API_KEY cfg) then
    match openai_Audio_transcribe P "whisper-1" audio lang with
    | Ok resp => default EmptyString (resp !! "text")
    | Raise e => "[ASR error: " +:+ str_exn e +:+ "]"
    end
  else "[ASR not configured - set OPENAI_API_KEY]".

(** What the language-model wrapper returns for a transcript when the
    credentials are present. *)
Definition llm_outcome (P : platform) (cfg : config) (transcript lang : string)
  : string :=
  match openai_ChatCompletion_create P (OPENAI_MODEL cfg)
          (chat_messages transcript lang) 500 with
  | Ok (content :: _) => Py.strip content
  | Ok [] => "[LLM error: list index out of range]"
  | Raise e => "[LLM error: " +:+ str_exn e +:+ "]"
  end.

(** The network calls of one voice request, wrapper by wrapper. *)
Definition asr_calls (cfg : config) (audio lang : string) : list net_call :=
  if Py.truthy (OPENAI_API_KEY cfg)
  then [CallTranscribe "whisper-1" audio lang] else [].

Definition llm_calls (cfg : config) (transcript lang : string) : list net_call :=
  if asr_usable transcript
  then [CallChat (OPENAI_MODEL cfg) (chat_messages transcript lang) 500]
  else [].

Definition tts_calls (cfg : config) (text voice : string) : list net_call :=
  if Py.truthy (ELEVENLABS_API_KEY cfg) then [tts_call cfg text voice] else [].

(** The output file of a voice request received in world [w]. *)
Definition out_path_of (P : platform) (w : world) : string :=
  os_path_join "static" (out_filename_of P w).

(** The world after the submissions [cs], one after the other. *)
Definition after_submissions (P : platform) (cs : list Contact) (w : world)
  : world :=
  foldl (fun w c => snd (submit P c w)) w cs.

(** Printable ASCII, or a line feed. *)
Definition plain_char (a : ascii) : bool :=
  let n := nat_of_ascii a in
  ((32 <=? n) && (n <=? 126)) || (n =? 10).

Fixpoint plain_text (s : string) : bool :=
  match s with
  | EmptyString => true
  | String a s' => plain_char a && plain_text s'
  end.

(** The first character of a text, for telling paths apart. *)
Definition first_char (s : string) : ascii :=
  match s with
  | EmptyString => "000"%char
  | String a _ => a
  end.

(** The world in which the speech-synthesis wrapper of a voice request is
    run. *)
Definition before_tts (P : platform) (cfg : config)
  (filename audio_bytes : string) (language : option string) (w : world)
  : world :=
  let lang := lang_of language in
  let t := asr_outcome P cfg audio_bytes lang in
  {| files := <[tmp_name_of P filename w := audio_bytes]> (files w);
     net := (net w ++ asr_calls cfg audio_bytes lang) ++ llm_calls cfg t lang;
     draws := S (S (draws w)) |}.

(** What the language-model step leaves as response text. *)
Definition response_for (P : platform) (cfg : config)
  (transcript lang : string) : string :=
  if asr_usable transcript then llm_outcome P cfg transcript lang
  else "[LLM unavailable due to ASR error or missing config]".

(** A variable of the environment that the loader takes up: its name starts
    with [VOICE_] and its value is not empty. *)
Definition voice_variable (kv : string * string) : bool :=
  Py.startswith (fst kv) "VOICE_" && Py.truthy (snd kv).

(** More sample platforms. *)
Module Cases.

(** The speech-synthesis stream breaks after its first chunk. *)
Definition P_cut : platform := {|
  uuid4_hex := Sample.hex;
  open_error := fun _ => None;
  disk_room := None;
  openai_Audio_transcribe := fun _ audio _ => Ok {[ "text" := "hola" ]};
  openai_ChatCompletion_create := fun _ _ _ => Ok ["  Buenos dias.  "];
  requests_post := fun _ _ _ _ =>
    Ok {| status_code := 200; iter_content := ["ID3"];
          stream_error := Some (Exception "Connection broken") |}
|}.

(** The transcription has no [text] field. *)
Definition P_silent : platform := {|
  uuid4_hex := Sample.hex;
  open_error := fun _ => None;
  disk_room := None;
  openai_Audio_transcribe := fun _ audio _ => Ok ∅;
  openai_ChatCompletion_create := fun _ _ _ => Ok ["  Buenos dias.  "];
  requests_post := fun _ _ _ _ =>
    Ok {| status_code := 200; iter_content := ["ID3"]; stream_error := None |}
|}.

(** A world with some files of other requests. *)
Definition w_busy : world :=
  {| files := {[ "static/index.html" := "<html>";
                 SUBMISSIONS_FILE := "[]" ]};
     net := []; draws := 7 |}.

Definition carla : Contact :=
  {| name := String Json.dquote "Car\la"; email := "c@x.com";
     plan := Some (String Json.LF "x"); message := None |}.

(** A name with a character beyond ASCII (U+00EB) and a message with a
    tab and a control character. *)
Definition zoe : Contact :=
  {| name := "Zo" +:+ String "235"%char EmptyString; email := "z@x.com";
     plan := None;
     message := Some (String "009"%char (String "001"%char "hi")) |}.

End Cases.

(** * Lemmas *)

(** * Strings *)

Lemma sapp_cons (a : ascii) (s t : string) : String a s +:+ t = String a (s +:+ t).
Proof. reflexivity. Qed.

Lemma sapp_nil_l (t : string) : EmptyString +:+ t = t.
Proof. reflexivity. Qed.

Lemma sapp_nil_r (s : string) : s +:+ EmptyString = s.
Proof. induction s as [|a s IH]; [reflexivity|]. rewrite sapp_cons, IH. reflexivity. Qed.

Lemma sapp_assoc (s t u : string) : (s +:+ t) +:+ u = s +:+ (t +:+ u).
Proof.
  induction s as [|a s IH]; [reflexivity|].
  rewrite !sapp_cons, IH. reflexivity.
Qed.

Lemma slength_app (s t : string) :
  String.length (s +:+ t) = String.length s + String.length t.
Proof.
  induction s as [|a s IH]; [reflexivity|].
  rewrite sapp_cons. simpl. rewrite IH. reflexivity.
Qed.

Module PyFacts.

Lemma truthy_false (s : string) : Py.truthy s = false <-> s = EmptyString.
Proof. destruct s; simpl; split; congruence. Qed.

Lemma truthy_true (s : string) : Py.truthy s = true <-> s <> EmptyString.
Proof. destruct s; simpl; split; congruence. Qed.

Lemma split_not_nil (sep : ascii) (s : string) : Py.split sep s <> [].
Proof.
  induction s as [|a s IH]; simpl; [discriminate|].
  destruct (Ascii.eqb a sep); [discriminate|].
  destruct (Py.split sep s); [contradiction|discriminate].
Qed.

(** The first piece of [s.split(sep)] is the text before the first
    separator. *)
Lemma split_head (sep : ascii) (p r : string) :
  Py.contains sep p = false ->
  Py.item (Py.split sep (p +:+ String sep r)) 0 = p.
Proof.
  induction p as [|a p IH]; intros Hp.
  - rewrite sapp_nil_l. simpl. rewrite Ascii.eqb_refl. reflexivity.
  - simpl in Hp. rewrite sapp_cons. simpl.
    destruct (Ascii.eqb a sep); [discriminate|].
    specialize (IH Hp). unfold Py.item in *.
    destruct (Py.split sep (p +:+ String sep r)) as [|h t] eqn:E.
    + exfalso. eapply split_not_nil, E.
    + simpl in *. subst h. reflexivity.
Qed.

Lemma contains_app (sep : ascii) (p r : string) :
  Py.contains sep (p +:+ String sep r) = true.
Proof.
  induction p as [|a p IH].
  - rewrite sapp_nil_l. simpl. rewrite Ascii.eqb_refl. reflexivity.
  - rewrite sapp_cons. simpl. rewrite IH. destruct (Ascii.eqb a sep); reflexivity.
Qed.

(** A text with a separator splits as its head, the separator, the rest. *)
Lemma contains_split (sep : ascii) (s : string) :
  Py.contains sep s = true ->
  exists r, s = Py.item (Py.split sep s) 0 +:+ String sep r
            /\ Py.contains sep (Py.item (Py.split sep s) 0) = false.
Proof.
  induction s as [|a s IH]; simpl; [discriminate|].
  destruct (Ascii.eqb a sep) eqn:E.
  - intros _. apply Ascii.eqb_eq in E. subst a. exists s. split; reflexivity.
  - intros H. destruct (IH H) as (r & Hs & Hc).
    unfold Py.item in *.
    destruct (Py.split sep s) as [|h t] eqn:Es.
    + exfalso. eapply split_not_nil, Es.
    + simpl in *. exists r. split.
      * change (String a s = String a (h +:+ String sep r)). congruence.
      * rewrite E. exact Hc.
Qed.

Lemma split1_voice (suffix : string) :
  Py.item (Py.split1 "_"%char ("VOICE_" +:+ suffix)) 1 = suffix.
Proof. reflexivity. Qed.

Lemma startswith_app (p s : string) : Py.startswith (p +:+ s) p = true.
Proof.
  unfold Py.startswith. induction p as [|a p IH]; simpl.
  - destruct s; reflexivity.
  - destruct (ascii_dec a a); [exact IH|congruence].
Qed.

Lemma startswith_inv (s p : string) :
  Py.startswith s p = true -> exists r, s = p +:+ r.
Proof.
  unfold Py.startswith. revert s. induction p as [|a p IH]; intros s H.
  - exists s. reflexivity.
  - destruct s as [|b s]; simpl in H; [discriminate|].
    destruct (ascii_dec a b); [|discriminate]. subst b.
    destruct (IH _ H) as [r ->]. exists r. reflexivity.
Qed.

Lemma lower_char_not_upper (a : ascii) : Py.is_upper (Py.lower_char a) = false.
Proof. destruct a as [[] [] [] [] [] [] [] []]; reflexivity. Qed.

Lemma lower_no_upper (s : string) : Py.has_upper (Py.lower s) = false.
Proof.
  induction s as [|a s IH]; [reflexivity|].
  simpl. rewrite lower_char_not_upper, IH. reflexivity.
Qed.

Lemma has_upper_app (s t : string) :
  Py.has_upper (s +:+ t) = Py.has_upper s || Py.has_upper t.
Proof.
  induction s as [|a s IH]; [reflexivity|].
  rewrite sapp_cons. simpl. rewrite IH. apply orb_assoc.
Qed.

End PyFacts.

(** * The voice map loader *)

Lemma load_step_other (voices : gmap string string) (k v lang : string) :
  k <> "VOICE_" +:+ lang ->
  load_step voices (k, v) !! lang = voices !! lang.
Proof.
  intros Hk. unfold load_step.
  destruct (Py.startswith k "VOICE_") eqn:Hs; simpl; [|reflexivity].
  destruct (Py.truthy v); [|reflexivity].
  apply PyFacts.startswith_inv in Hs as [r ->].
  rewrite PyFacts.split1_voice.
  apply lookup_insert_ne. congruence.
Qed.

Lemma load_fold_other (env : environ) (voices : gmap string string) (lang : string) :
  "VOICE_" +:+ lang ∉ env.*1 ->
  foldl load_step voices env !! lang = voices !! lang.
Proof.
  revert voices. induction env as [|[k v] env IH]; intros voices Hnot; [reflexivity|].
  simpl in *. apply not_elem_of_cons in Hnot as [Hk Hnot].
  rewrite IH by exact Hnot. apply load_step_other. congruence.
Qed.

Lemma load_fold_entry (env : environ) (voices : gmap string string) (lang v : string) :
  NoDup env.*1 -> ("VOICE_" +:+ lang, v) ∈ env -> v <> EmptyString ->
  foldl load_step voices env !! lang = Some v.
Proof.
  revert voices. induction env as [|[k v'] env IH]; intros voices Hnd Hin Hv.
  - inversion Hin.
  - simpl in *. apply NoDup_cons in Hnd as [Hk Hnd].
    apply elem_of_cons in Hin as [Heq|Hin].
    + inversion Heq; subst k v'.
      rewrite load_fold_other by exact Hk.
      unfold load_step. rewrite PyFacts.startswith_app.
      destruct v as [|a v]; [congruence|].
      change (<[lang := String a v]> voices !! lang = Some (String a v)).
      apply lookup_insert_eq.
    + apply IH; assumption.
Qed.

Lemma load_fold_origin (env : environ) (voices : gmap string string) (lang v : string) :
  foldl load_step voices env !! lang = Some v ->
  voices !! lang = Some v \/ (("VOICE_" +:+ lang, v) ∈ env /\ v <> EmptyString).
Proof.
  revert voices. induction env as [|[k v'] env IH]; intros voices H; [left; exact H|].
  simpl in H. apply IH in H as [H|[H Hv]].
  - unfold load_step in H.
    destruct (Py.startswith k "VOICE_") eqn:Hs; simpl in H; [|left; exact H].
    destruct (Py.truthy v') eqn:Ht; [|left; exact H].
    apply PyFacts.startswith_inv in Hs as [r ->].
    rewrite PyFacts.split1_voice in H.
    destruct (decide (r = lang)) as [->|Hne].
    + rewrite lookup_insert_eq in H. inversion H; subst v'.
      right. split; [left|apply PyFacts.truthy_true; exact Ht].
    + rewrite lookup_insert_ne in H by exact Hne. left; exact H.
  - right. split; [right; exact H|exact Hv].
Qed.

(** * Voice selection *)

Section Voice.

Variable cfg : config.

Lemma choose_voice_empty :
  choose_voice_for_language cfg EmptyString = ELEVENLABS_VOICE_DEFAULT cfg.
Proof. reflexivity. Qed.

Lemma choose_voice_exact (lang voice : string) :
  lang <> EmptyString ->
  VOICE_MAP cfg !! lang = Some voice ->
  choose_voice_for_language cfg lang = voice.
Proof.
  intros Hne Hm. unfold choose_voice_for_language.
  apply PyFacts.truthy_true in Hne. rewrite Hne, Hm. reflexivity.
Qed.

Lemma choose_voice_prefix (lang voice : string) :
  VOICE_MAP cfg !! lang = None ->
  Py.contains "-"%char lang = true ->
  VOICE_MAP cfg !! Py.item (Py.split "-"%char lang) 0 = Some voice ->
  choose_voice_for_language cfg lang = voice.
Proof.
  intros Hm Hc Hp. unfold choose_voice_for_language.
  destruct lang as [|a lang]; [discriminate|].
  simpl Py.truthy. simpl negb. cbv iota. rewrite Hm, Hc. 
  cbv zeta. rewrite Hp. reflexivity.
Qed.

Lemma choose_voice_no_separator (lang : string) :
  VOICE_MAP cfg !! lang = None ->
  Py.contains "-"%char lang = false ->
  choose_voice_for_language cfg lang = ELEVENLABS_VOICE_DEFAULT cfg.
Proof.
  intros Hm Hc. unfold choose_voice_for_language.
  rewrite Hm, Hc. destruct (negb (Py.truthy lang)); reflexivity.
Qed.

Lemma choose_voice_no_prefix (lang : string) :
  VOICE_MAP cfg !! lang = None ->
  VOICE_MAP cfg !! Py.item (Py.split "-"%char lang) 0 = None ->
  choose_voice_for_language cfg lang = ELEVENLABS_VOICE_DEFAULT cfg.
Proof.
  intros Hm Hp. unfold choose_voice_for_language.
  rewrite Hm. cbv zeta. rewrite Hp.
  destruct (negb (Py.truthy lang)), (Py.contains "-"%char lang); reflexivity.
Qed.

(** The voice chosen is the default or the value of one of the two keys
    looked up. *)
Lemma choose_voice_cases (lang : string) :
  choose_voice_for_language cfg lang = ELEVENLABS_VOICE_DEFAULT cfg
  \/ VOICE_MAP cfg !! lang = Some (choose_voice_for_language cfg lang)
  \/ (Py.contains "-"%char lang = true
      /\ VOICE_MAP cfg !! Py.item (Py.split "-"%char lang) 0
         = Some (choose_voice_for_language cfg lang)).
Proof.
  unfold choose_voice_for_language.
  destruct (negb (Py.truthy lang)); [left; reflexivity|].
  destruct (VOICE_MAP cfg !! lang) as [v|] eqn:Hm; [right; left; reflexivity|].
  destruct (Py.contains "-"%char lang) eqn:Hc; [|left; reflexivity].
  cbv zeta.
  destruct (VOICE_MAP cfg !! Py.item (Py.split "-"%char lang) 0) as [v|] eqn:Hp.
  - right; right. split; reflexivity.
  - left; reflexivity.
Qed.

End Voice.

Lemma lookup_without_upper (cfg : config) (k : string) :
  Py.has_upper k = false ->
  VOICE_MAP (without_upper_keys cfg) !! k = VOICE_MAP cfg !! k.
Proof.
  intros Hk. simpl. rewrite map_lookup_filter.
  destruct (VOICE_MAP cfg !! k) as [v|]; [|reflexivity].
  simpl. rewrite option_guard_True by exact Hk. reflexivity.
Qed.

Lemma split_head_no_upper (lang : string) :
  Py.has_upper lang = false ->
  Py.contains "-"%char lang = true ->
  Py.has_upper (Py.item (Py.split "-"%char lang) 0) = false.
Proof.
  intros Hu Hc. destruct (PyFacts.contains_split _ _ Hc) as (r & Hs & _).
  rewrite Hs, PyFacts.has_upper_app in Hu.
  apply orb_false_elim in Hu as [Hu _]. exact Hu.
Qed.

Lemma choose_voice_without_upper (cfg : config) (lang : string) :
  Py.has_upper lang = false ->
  choose_voice_for_language (without_upper_keys cfg) lang
  = choose_voice_for_language cfg lang.
Proof.
  intros Hu. unfold choose_voice_for_language.
  rewrite (lookup_without_upper cfg lang Hu).
  destruct (Py.contains "-"%char lang) eqn:Hc.
  - cbv zeta. rewrite (lookup_without_upper cfg _ (split_head_no_upper _ Hu Hc)).
    reflexivity.
  - reflexivity.
Qed.

(** * The monad *)

Lemma bind_unfold {A B} (m : M A) (k : A -> M B) (w : world) :
  (m ≫= k) w = match m w with
               | (Ok a, w') => k a w'
               | (Raise e, w') => (Raise e, w')
               end.
Proof. reflexivity. Qed.

Lemma bind_ok {A B} (m : M A) (k : A -> M B) (w w' : world) (a : A) :
  m w = (Ok a, w') -> (m ≫= k) w = k a w'.
Proof. intros H. rewrite bind_unfold, H. reflexivity. Qed.

Lemma bind_raise {A B} (m : M A) (k : A -> M B) (w w' : world) (e : exn) :
  m w = (Raise e, w') -> (m ≫= k) w = (Raise e, w').
Proof. intros H. rewrite bind_unfold, H. reflexivity. Qed.

(** A handler that returns makes the whole statement return. *)
Lemma try_except_total {A} (body : M A) (h : exn -> A) (w : world) :
  exists a w', try_except body (fun e => mret (h e)) w = (Ok a, w').
Proof.
  unfold try_except. destruct (body w) as [[a|e] w']; eauto.
Qed.

Lemma try_except_ok {A} (body : M A) (handler : exn -> M A) (w w' : world) (a : A) :
  body w = (Ok a, w') -> try_except body handler w = (Ok a, w').
Proof. intros H. unfold try_except. rewrite H. reflexivity. Qed.

Lemma try_except_raise {A} (body : M A) (handler : exn -> M A) (w w' : world) (e : exn) :
  body w = (Raise e, w') -> try_except body handler w = handler e w'.
Proof. intros H. unfold try_except. rewrite H. reflexivity. Qed.

(** * Files *)

Lemma str_take_all (s : string) : str_take (String.length s) s = s.
Proof. induction s as [|a s IH]; simpl; [reflexivity|]. rewrite IH. reflexivity. Qed.

Lemma str_drop_all (s : string) (n : nat) :
  String.length s <= n -> str_drop n s = EmptyString.
Proof.
  revert n. induction s as [|a s IH]; intros n Hn.
  - destruct n; reflexivity.
  - destruct n; simpl in *; [lia|]. apply IH. lia.
Qed.

Lemma str_take_0 (s : string) : str_take 0 s = EmptyString.
Proof. destruct s; reflexivity. Qed.

Lemma set_files_set_files (a b : gmap string string) (w : world) :
  set_files a (set_files b w) = set_files a w.
Proof. reflexivity. Qed.

Lemma fits_room (P : platform) (data : string) (room : nat) :
  fits P data = true -> disk_room P = Some room ->
  (room <? String.length data) = false.
Proof.
  unfold fits. intros H Hr. rewrite Hr in H. apply Nat.leb_le in H. apply Nat.ltb_ge. exact H.
Qed.

(** Writing over a file from its start with text at least as long as the
    file leaves exactly the text written. *)
Lemma f_write_over (P : platform) (path old data : string) (w : world) :
  files w !! path = Some old ->
  String.length old <= String.length data ->
  fits P data = true ->
  f_write P {| f_path := path; f_pos := 0 |} data w
  = (Ok {| f_path := path; f_pos := String.length data |},
     set_files (<[path := data]> (files w)) w).
Proof.
  intros Hold Hlen Hfit. unfold f_write. simpl. rewrite Hold. simpl.
  rewrite ?str_take_0, (str_drop_all old _ Hlen), ?sapp_nil_l, sapp_nil_r.
  destruct (disk_room P) as [room|] eqn:Hr; [|reflexivity].
  rewrite (fits_room _ _ _ Hfit Hr). reflexivity.
Qed.

(** Appending at the end of a file. *)
Lemma f_write_end (P : platform) (path old data : string) (w : world) :
  files w !! path = Some old ->
  forall r w',
  f_write P {| f_path := path; f_pos := String.length old |} data w = (Ok r, w') ->
  r = {| f_path := path; f_pos := String.length (old +:+ data) |}
  /\ w' = set_files (<[path := old +:+ data]> (files w)) w.
Proof.
  intros Hold r w'. unfold f_write. simpl. rewrite Hold. simpl.
  rewrite str_take_all, (str_drop_all old) by lia. rewrite sapp_nil_r.
  rewrite slength_app.
  destruct (disk_room P) as [room|].
  - destruct (room <? _); intros H; inversion H; subst; split; reflexivity.
  - intros H; inversion H; subst; split; reflexivity.
Qed.

Lemma may_open_true (P : platform) (path : string) :
  may_open P path = true -> open_error P path = None.
Proof. unfold may_open. destruct (open_error P path); [discriminate|reflexivity]. Qed.

Lemma may_open_false (P : platform) (path : string) :
  may_open P path = false -> exists msg, open_error P path = Some msg.
Proof. unfold may_open. destruct (open_error P path); [eauto|discriminate]. Qed.

(** Creating a file and writing [data] to it. *)
Lemma write_new_file (P : platform) (path data : string) (w : world) :
  may_open P path = true -> fits P data = true ->
  (open_ P path WB ≫= fun f => f_write P f data) w
  = (Ok {| f_path := path; f_pos := String.length data |},
     set_files (<[path := data]> (files w)) w).
Proof.
  intros Hp Hfit. rewrite bind_unfold. unfold open_.
  rewrite (may_open_true _ _ Hp).
  rewrite (f_write_over P path EmptyString data).
  - simpl. rewrite insert_insert_eq. reflexivity.
  - simpl. apply lookup_insert_eq.
  - simpl. lia.
  - exact Hfit.
Qed.

Lemma write_new_file_denied (P : platform) (path data : string) (w : world)
  (msg : string) :
  open_error P path = Some msg ->
  (open_ P path WB ≫= fun f => f_write P f data) w = (Raise (OSError msg), w).
Proof.
  intros Hp. rewrite bind_unfold. unfold open_. rewrite Hp. reflexivity.
Qed.

(** * The provider wrappers *)

Section Adapters.

Variable P : platform.
Variable cfg : config.

(** ** Speech recognition *)

Lemma run_asr_local_no_key (path lang : string) (w : world) :
  OPENAI_API_KEY cfg = EmptyString ->
  run_asr_local P cfg path lang w
  = (Ok "[ASR not configured - set OPENAI_API_KEY]", w).
Proof. intros Hk. unfold run_asr_local. rewrite Hk. reflexivity. Qed.

Lemma run_asr_local_total (path lang : string) (w : world) :
  exists s w', run_asr_local P cfg path lang w = (Ok s, w').
Proof.
  unfold run_asr_local. destruct (negb _).
  - eexists _, _. reflexivity.
  - apply try_except_total.
Qed.

(** With a key and a readable file the provider is called once, and its
    answer decides the result. *)
Lemma run_asr_local_call (path lang audio : string) (w : world) :
  OPENAI_API_KEY cfg <> EmptyString ->
  may_open P path = true ->
  files w !! path = Some audio ->
  run_asr_local P cfg path lang w
  = (Ok match openai_Audio_transcribe P "whisper-1" audio lang with
        | Ok resp => default EmptyString (resp !! "text")
        | Raise e => "[ASR error: " +:+ str_exn e +:+ "]"
        end,
     log_call (CallTranscribe "whisper-1" audio lang) w).
Proof.
  intros Hk Hp Hf. unfold run_asr_local.
  apply PyFacts.truthy_true in Hk. rewrite Hk.
  change (negb true) with false. cbv beta iota.
  unfold try_except. rewrite bind_unfold. unfold open_.
  rewrite (may_open_true _ _ Hp), Hf. rewrite bind_unfold.
  unfold Audio_transcribe, content_from. simpl f_path. simpl f_pos.
  rewrite Hf. simpl.
  destruct (openai_Audio_transcribe P "whisper-1" audio lang); reflexivity.
Qed.

(** The wrapper writes no file and draws no uuid; it logs at most one
    transcription call. *)
Lemma run_asr_local_frame (path lang : string) (w w' : world) (r : result string) :
  run_asr_local P cfg path lang w = (r, w') ->
  files w' = files w /\ draws w' = draws w
  /\ (net w' = net w
      \/ exists model audio language,
           net w' = net w ++ [CallTranscribe model audio language]).
Proof.
  unfold run_asr_local. destruct (negb _).
  - intros H. inversion H. auto.
  - unfold try_except. rewrite bind_unfold. unfold open_.
    destruct (open_error P path).
    { intros H. inversion H. auto. }
    destruct (files w !! path) as [audio|].
    2:{ intros H. inversion H. auto. }
    rewrite bind_unfold. unfold Audio_transcribe.
    destruct (openai_Audio_transcribe P _ _ _); intros H; inversion H; simpl;
      (split; [reflexivity|split; [reflexivity|right; eauto]]).
Qed.

(** ** Language model *)

Lemma run_llm_local_no_key (transcript lang : string) (w : world) :
  OPENAI_API_KEY cfg = EmptyString ->
  run_llm_local P cfg transcript lang w
  = (Ok "[LLM not configured - set OPENAI_API_KEY]", w).
Proof. intros Hk. unfold run_llm_local. rewrite Hk. reflexivity. Qed.

Lemma run_llm_local_total (transcript lang : string) (w : world) :
  exists s w', run_llm_local P cfg transcript lang w = (Ok s, w').
Proof.
  unfold run_llm_local. destruct (negb _).
  - eexists _, _. reflexivity.
  - apply try_except_total.
Qed.

Lemma run_llm_local_call (transcript lang : string) (w : world) :
  OPENAI_API_KEY cfg <> EmptyString ->
  run_llm_local P cfg transcript lang w
  = (Ok match openai_ChatCompletion_create P (OPENAI_MODEL cfg)
                (chat_messages transcript lang) 500 with
        | Ok (content :: _) => Py.strip content
        | Ok [] => "[LLM error: list index out of range]"
        | Raise e => "[LLM error: " +:+ str_exn e +:+ "]"
        end,
     log_call (CallChat (OPENAI_MODEL cfg) (chat_messages transcript lang) 500) w).
Proof.
  intros Hk. unfold run_llm_local.
  apply PyFacts.truthy_true in Hk. rewrite Hk.
  change (negb true) with false. cbv beta iota.
  unfold try_except. cbv zeta. rewrite bind_unfold.
  unfold ChatCompletion_create.
  change [("system", _); ("user", _)] with (chat_messages transcript lang).
  destruct (openai_ChatCompletion_create P _ _ _) as [[|c cs]|e]; reflexivity.
Qed.

Lemma run_llm_local_frame (transcript lang : string) (w w' : world) (r : result string) :
  run_llm_local P cfg transcript lang w = (r, w') ->
  files w' = files w /\ draws w' = draws w
  /\ (net w' = net w
      \/ exists model messages max_tokens,
           net w' = net w ++ [CallChat model messages max_tokens]).
Proof.
  destruct (decide (OPENAI_API_KEY cfg = EmptyString)) as [Hk|Hk].
  - rewrite run_llm_local_no_key by exact Hk. intros H; inversion H. auto.
  - rewrite run_llm_local_call by exact Hk. intros H; inversion H. simpl.
    split; [reflexivity|split; [reflexivity|right; eauto]].
Qed.

End Adapters.

Section Speech.

Variable P : platform.
Variable cfg : config.

(** ** Speech synthesis *)

Lemma run_tts_no_key (text voice out_path : string) (w : world) :
  ELEVENLABS_API_KEY cfg = EmptyString ->
  run_tts_elevenlabs P cfg text voice out_path w = (Ok false, w).
Proof. intros Hk. unfold run_tts_elevenlabs. rewrite Hk. reflexivity. Qed.

Lemma run_tts_total (text voice out_path : string) (w : world) :
  exists b w', run_tts_elevenlabs P cfg text voice out_path w = (Ok b, w').
Proof.
  unfold run_tts_elevenlabs. destruct (negb _).
  - eexists _, _. reflexivity.
  - apply (try_except_total _ (fun _ => false)).
Qed.

(** With a key, the wrapper sends one request; the answer decides what
    follows. *)
Lemma run_tts_call (text voice out_path : string) (w : world) :
  ELEVENLABS_API_KEY cfg <> EmptyString ->
  run_tts_elevenlabs P cfg text voice out_path w
  = match tts_request P cfg text voice with
    | Raise _ => (Ok false, log_call (tts_call cfg text voice) w)
    | Ok r =>
        if status_code r =? 200 then
          match (open_ P out_path WB ≫= fun f =>
                 write_chunks P f (iter_content r) (stream_error r))
                  (log_call (tts_call cfg text voice) w) with
          | (Ok _, w') => (Ok true, w')
          | (Raise _, w') => (Ok false, w')
          end
        else (Ok false, log_call (tts_call cfg text voice) w)
    end.
Proof.
  intros Hk. unfold run_tts_elevenlabs.
  apply PyFacts.truthy_true in Hk. rewrite Hk.
  change (negb true) with false. cbv beta iota zeta.
  unfold try_except. rewrite bind_unfold. unfold requests_post_.
  fold (tts_request P cfg text voice). fold (tts_call cfg text voice).
  destruct (tts_request P cfg text voice) as [r|e]; [|reflexivity].
  destruct (status_code r =? 200); [|reflexivity].
  rewrite !bind_unfold.
  destruct (open_ P out_path WB _) as [[f|e] w1]; [|reflexivity].
  rewrite bind_unfold.
  destruct (write_chunks P f _ _ w1) as [[f'|e] w2]; reflexivity.
Qed.

(** The loop appends the chunks to the file; it returns only when the
    stream ends without failure. *)
Lemma write_chunks_ok (chunks : list string) (err : option exn) :
  forall (path old : string) (w : world) (f' : file) (w' : world),
  files w !! path = Some old ->
  write_chunks P {| f_path := path; f_pos := String.length old |} chunks err w
  = (Ok f', w') ->
  err = None
  /\ files w' = <[path := old +:+ foldr String.append EmptyString chunks]> (files w)
  /\ net w' = net w /\ draws w' = draws w.
Proof.
  induction chunks as [|chunk chunks IH]; intros path old w f' w' Hold.
  - simpl. destruct err; intros H; inversion H; subst.
    rewrite sapp_nil_r, insert_id by exact Hold. auto.
  - simpl. rewrite bind_unfold. destruct (Py.truthy chunk) eqn:Ht.
    + destruct (f_write P _ chunk w) as [[f1|e] w1] eqn:Hw; [|discriminate].
      destruct (f_write_end P path old chunk w Hold _ _ Hw) as [-> ->].
      intros H. apply (IH path (old +:+ chunk)) in H.
      2:{ simpl. apply lookup_insert_eq. }
      destruct H as (He & Hf & Hn & Hd). simpl in *.
      rewrite insert_insert_eq, sapp_assoc in Hf. auto.
    + apply PyFacts.truthy_false in Ht. subst chunk.
      unfold mret, M_ret.
      intros H. apply (IH path old) in H; [|exact Hold].
      simpl. rewrite sapp_nil_l. exact H.
Qed.

(** Success means: status 200, a stream that ended well, and the whole
    body in the output file. *)
Lemma run_tts_true (text voice out_path : string) (w w' : world) :
  run_tts_elevenlabs P cfg text voice out_path w = (Ok true, w') ->
  ELEVENLABS_API_KEY cfg <> EmptyString
  /\ may_open P out_path = true
  /\ exists r, tts_request P cfg text voice = Ok r
       /\ status_code r = 200
       /\ stream_error r = None
       /\ files w' !! out_path = Some (body_of r).
Proof.
  destruct (decide (ELEVENLABS_API_KEY cfg = EmptyString)) as [Hk|Hk].
  { rewrite run_tts_no_key by exact Hk. discriminate. }
  rewrite run_tts_call by exact Hk. intros H. split; [exact Hk|].
  destruct (tts_request P cfg text voice) as [r|e]; [|discriminate].
  destruct (status_code r =? 200) eqn:Hs; [|discriminate].
  apply Nat.eqb_eq in Hs.
  rewrite bind_unfold in H. unfold open_ in H.
  unfold may_open.
  destruct (open_error P out_path); [discriminate|].
  split; [reflexivity|]. exists r.
  destruct (write_chunks P _ _ _ _) as [[f'|e] w2] eqn:Hw; [|discriminate].
  inversion H; subst w2.
  apply (write_chunks_ok _ _ out_path EmptyString) in Hw.
  2:{ simpl. apply lookup_insert_eq. }
  destruct Hw as (He & Hf & _). rewrite Hf. simpl. rewrite sapp_nil_l.
  rewrite lookup_insert_eq. auto.
Qed.

Lemma run_tts_provider_raises (text voice out_path : string) (w : world) (e : exn) :
  ELEVENLABS_API_KEY cfg <> EmptyString ->
  tts_request P cfg text voice = Raise e ->
  run_tts_elevenlabs P cfg text voice out_path w
  = (Ok false, log_call (tts_call cfg text voice) w).
Proof. intros Hk He. rewrite run_tts_call by exact Hk. rewrite He. reflexivity. Qed.

Lemma run_tts_bad_status (text voice out_path : string) (w : world) (r : response) :
  ELEVENLABS_API_KEY cfg <> EmptyString ->
  tts_request P cfg text voice = Ok r ->
  status_code r <> 200 ->
  run_tts_elevenlabs P cfg text voice out_path w
  = (Ok false, log_call (tts_call cfg text voice) w).
Proof.
  intros Hk Hr Hs. rewrite run_tts_call by exact Hk. rewrite Hr.
  apply Nat.eqb_neq in Hs. rewrite Hs. reflexivity.
Qed.

(** The wrapper draws no uuid. *)
Lemma write_chunks_draws (chunks : list string) (err : option exn) :
  forall (f : file) (w : world) (r : result file) (w' : world),
  write_chunks P f chunks err w = (r, w') -> draws w' = draws w /\ net w' = net w.
Proof.
  induction chunks as [|chunk chunks IH]; intros f w r w'.
  - simpl. destruct err; intros H; inversion H; auto.
  - simpl. rewrite bind_unfold. destruct (Py.truthy chunk).
    + unfold f_write at 1.
      destruct (disk_room P) as [room|].
      * destruct (room <? _).
        -- intros H; inversion H; auto.
        -- intros H. apply IH in H. exact H.
      * intros H. apply IH in H. exact H.
    + apply IH.
Qed.

(** The wrapper logs at most its one request. *)
Lemma run_tts_net (text voice out_path : string) (w w' : world) (r : result bool) :
  run_tts_elevenlabs P cfg text voice out_path w = (r, w') ->
  net w' = net w \/ net w' = net w ++ [tts_call cfg text voice].
Proof.
  destruct (decide (ELEVENLABS_API_KEY cfg = EmptyString)) as [Hk|Hk].
  { rewrite run_tts_no_key by exact Hk. intros H; inversion H; auto. }
  rewrite run_tts_call by exact Hk.
  destruct (tts_request P cfg text voice) as [resp|e].
  2:{ intros H; inversion H; auto. }
  destruct (status_code resp =? 200).
  2:{ intros H; inversion H; auto. }
  rewrite bind_unfold. unfold open_.
  destruct (open_error P out_path).
  { intros H; inversion H; auto. }
  destruct (write_chunks P _ _ _ _) as [[f'|e] w2] eqn:Hw;
    apply write_chunks_draws in Hw as [_ Hn];
    intros H; inversion H; subst; right; exact Hn.
Qed.

Lemma run_tts_draws (text voice out_path : string) (w w' : world) (r : result bool) :
  run_tts_elevenlabs P cfg text voice out_path w = (r, w') -> draws w' = draws w.
Proof.
  destruct (decide (ELEVENLABS_API_KEY cfg = EmptyString)) as [Hk|Hk].
  { rewrite run_tts_no_key by exact Hk. intros H; inversion H; reflexivity. }
  rewrite run_tts_call by exact Hk.
  destruct (tts_request P cfg text voice) as [resp|e].
  2:{ intros H; inversion H; reflexivity. }
  destruct (status_code resp =? 200).
  2:{ intros H; inversion H; reflexivity. }
  rewrite bind_unfold. unfold open_.
  destruct (open_error P out_path).
  { intros H; inversion H; reflexivity. }
  destruct (write_chunks P _ _ _ _) as [[f'|e] w2] eqn:Hw;
    apply write_chunks_draws in Hw as [Hd _];
    intros H; inversion H; subst; exact Hd.
Qed.

End Speech.

Section Agent.

Variable P : platform.
Variable cfg : config.

Lemma write_new_file_then {B} (path data : string) (k : file -> M B) (w : world) :
  may_open P path = true -> fits P data = true ->
  (open_ P path WB ≫= fun f => f_write P f data ≫= k) w
  = k {| f_path := path; f_pos := String.length data |}
      (set_files (<[path := data]> (files w)) w).
Proof.
  intros Hp Hfit. rewrite bind_unfold. unfold open_.
  rewrite (may_open_true _ _ Hp). rewrite bind_unfold.
  rewrite (f_write_over P path EmptyString data).
  - simpl. rewrite insert_insert_eq. reflexivity.
  - simpl. apply lookup_insert_eq.
  - simpl. lia.
  - exact Hfit.
Qed.

Lemma remove_quietly (path : string) (w : world) :
  exists w', try_except (os_remove P path) (fun _ => mret tt) w = (Ok tt, w')
             /\ net w' = net w /\ draws w' = draws w.
Proof.
  unfold try_except, os_remove.
  destruct (files w !! path); [destruct (open_error P path)|]; eauto.
Qed.

Lemma llm_step_total (transcript lang : string) (w : world) :
  exists s w', llm_step P cfg transcript lang w = (Ok s, w').
Proof.
  unfold llm_step. destruct (asr_usable transcript).
  - apply run_llm_local_total.
  - eexists _, _. reflexivity.
Qed.

Lemma llm_step_frame (transcript lang : string) (w w' : world) (r : result string) :
  llm_step P cfg transcript lang w = (r, w') ->
  files w' = files w /\ draws w' = draws w
  /\ (net w' = net w
      \/ exists model messages max_tokens,
           net w' = net w ++ [CallChat model messages max_tokens]).
Proof.
  unfold llm_step. destruct (asr_usable transcript).
  - apply run_llm_local_frame.
  - intros H; inversion H; auto.
Qed.

(** One run of the handler, step by step: when the upload is written, each
    wrapper returns and the response is assembled from what they return. *)
Lemma voice_agent_run (filename audio_bytes : string) (language : option string)
  (w : world) :
  upload_ok P filename audio_bytes w = true ->
  exists t w2 resp w3 b w4 w5,
    run_asr_local P cfg (tmp_name_of P filename w) (lang_of language)
      (after_upload P filename audio_bytes w) = (Ok t, w2)
    /\ llm_step P cfg t (lang_of language) w2 = (Ok resp, w3)
    /\ run_tts_elevenlabs P cfg resp
         (choose_voice_for_language cfg (lang_of language))
         (os_path_join "static" (out_filename_of P w)) (next_draw w3)
       = (Ok b, w4)
    /\ net w5 = net w4
    /\ voice_agent P cfg filename audio_bytes language w
       = (Ok {| transcript := t;
                response_text := resp;
                tts_audio_url :=
                  if b then Some ("/static/" +:+ out_filename_of P w) else None |},
          w5).
Proof.
  intros Hup. apply andb_prop in Hup as [Hopen Hfit].
  destruct (run_asr_local_total P cfg (tmp_name_of P filename w) (lang_of language)
              (after_upload P filename audio_bytes w)) as (t & w2 & Ht).
  destruct (llm_step_total t (lang_of language) w2) as (resp & w3 & Hl).
  destruct (run_tts_total P cfg resp
              (choose_voice_for_language cfg (lang_of language))
              (os_path_join "static" (out_filename_of P w)) (next_draw w3))
    as (b & w4 & Hs).
  destruct (remove_quietly (tmp_name_of P filename w) w4) as (w5 & Hr & Hn & _).
  exists t, w2, resp, w3, b, w4, w5.
  split; [exact Ht|]. split; [exact Hl|]. split; [exact Hs|]. split; [exact Hn|].
  assert (Hd : draws w3 = S (draws w)).
  { apply run_asr_local_frame in Ht as (_ & Hd2 & _).
    apply llm_step_frame in Hl as (_ & Hd3 & _).
    rewrite Hd3, Hd2. reflexivity. }
  unfold voice_agent. cbv zeta.
  rewrite bind_unfold. unfold uuid4_hex_ at 1. cbv beta iota.
  fold (tmp_name_of P filename w).
  rewrite (write_new_file_then (tmp_name_of P filename w) audio_bytes)
    by assumption.
  change (set_files _ (next_draw w)) with (after_upload P filename audio_bytes w).
  fold (lang_of language).
  rewrite (bind_ok _ _ _ _ _ Ht).
  fold (asr_usable t). fold (llm_step P cfg t (lang_of language)).
  rewrite (bind_ok _ _ _ _ _ Hl).
  rewrite bind_unfold. unfold uuid4_hex_ at 1. cbv beta iota.
  rewrite Hd. fold (out_filename_of P w).
  rewrite (bind_ok _ _ _ _ _ Hs).
  rewrite (bind_ok _ _ _ _ _ Hr).
  reflexivity.
Qed.

Lemma voice_agent_upload_fails (filename audio_bytes : string)
  (language : option string) (w : world) :
  upload_ok P filename audio_bytes w = false ->
  exists msg w',
    voice_agent P cfg filename audio_bytes language w = (Raise (OSError msg), w')
    /\ (open_error P (tmp_name_of P filename w) = Some msg
        \/ OSError msg = NoSpaceError).
Proof.
  intros Hup. unfold voice_agent. cbv zeta.
  rewrite bind_unfold. unfold uuid4_hex_ at 1. cbv beta iota.
  fold (tmp_name_of P filename w).
  rewrite bind_unfold. unfold open_.
  unfold upload_ok, may_open in Hup.
  destruct (open_error P (tmp_name_of P filename w)) as [e|] eqn:Hopen.
  { eauto. }
  - rewrite bind_unfold. unfold f_write at 1.
    simpl in Hup. unfold fits in Hup.
    destruct (disk_room P) as [room|]; [|discriminate].
    simpl. rewrite lookup_insert_eq. simpl.
    rewrite (str_drop_all EmptyString) by (simpl; lia).
    rewrite sapp_nil_r. apply Nat.leb_gt in Hup.
    apply Nat.ltb_lt in Hup. rewrite !sapp_nil_l, Hup. eauto.
Qed.

End Agent.

(** * Reading back what [json.dump] wrote *)

Module JsonFacts.

Local Arguments newline_indent : simpl never.
Local Arguments encode : simpl never.

(** One escaped character is read back as the character. *)
Lemma scanstring_escape_char (a : ascii) (t : string) :
  scanstring (escape_char a +:+ t) = cons_char a <$> scanstring t.
Proof. destruct a as [[] [] [] [] [] [] [] []]; reflexivity. Qed.

Lemma scanstring_escape (s rest : string) :
  scanstring (escape s +:+ String dquote rest) = Ok (s, rest).
Proof.
  induction s as [|a s IH].
  - reflexivity.
  - simpl escape. rewrite sapp_assoc, scanstring_escape_char, IH. reflexivity.
Qed.

(** A string value, followed by anything. *)
Lemma scan_string (fuel : nat) (s rest : string) :
  scan_once (S fuel) (encode_string s +:+ rest) = Ok (JStr s, rest).
Proof.
  unfold encode_string. rewrite sapp_cons, sapp_assoc, sapp_cons, sapp_nil_l.
  simpl. rewrite scanstring_escape. reflexivity.
Qed.

Lemma scan_null (fuel : nat) (rest : string) :
  scan_once (S fuel) ("null" +:+ rest) = Ok (JNull, rest).
Proof. reflexivity. Qed.

Lemma skip_ws_spaces (n : nat) (c : ascii) (t : string) :
  is_ws c = false ->
  skip_ws (spaces n +:+ String c t) = String c t.
Proof.
  intros Hc. induction n as [|n IH].
  - rewrite sapp_nil_l. simpl. rewrite Hc. reflexivity.
  - simpl spaces. rewrite sapp_cons. simpl. exact IH.
Qed.

Lemma skip_ws_newline_indent (n lvl : nat) (c : ascii) (t : string) :
  is_ws c = false ->
  skip_ws (newline_indent (Some n) lvl +:+ String c t) = String c t.
Proof.
  intros Hc. unfold newline_indent. rewrite sapp_cons. simpl.
  apply skip_ws_spaces, Hc.
Qed.

Lemma skip_ws_stop (c : ascii) (t : string) :
  is_ws c = false -> skip_ws (String c t) = String c t.
Proof. intros Hc. simpl. rewrite Hc. reflexivity. Qed.


Lemma reads_string (lvl : nat) (s : string) : reads_from 1 lvl (JStr s).
Proof.
  intros fuel k Hf. split; [reflexivity|].
  destruct fuel as [|fuel]; [lia|]. apply scan_string.
Qed.

Lemma reads_null (lvl : nat) : reads_from 1 lvl JNull.
Proof.
  intros fuel k Hf. split; [reflexivity|].
  destruct fuel as [|fuel]; [lia|]. reflexivity.
Qed.

(** *** Objects *)

Section Members.

Variable lvl : nat.
Variable nv : nat.

Lemma concat_members (m : string * json) (ms : list (string * json)) (k : string) :
  String.concat (member_sep lvl) (map (member_text lvl) (m :: ms)) +:+ k
  = String dquote (members_tail lvl m ms k).
Proof.
  revert m. induction ms as [|m' ms IH]; intros m.
  - simpl. unfold member_text, encode_string.
    rewrite !sapp_cons, !sapp_assoc, !sapp_cons, !sapp_nil_l. reflexivity.
  - change (String.concat (member_sep lvl) (map (member_text lvl) (m :: m' :: ms)))
      with ((member_text lvl) m +:+ (member_sep lvl)
            +:+ String.concat (member_sep lvl) (map (member_text lvl) (m' :: ms))).
    rewrite !sapp_assoc, IH. unfold member_text, encode_string.
    simpl members_tail.
    rewrite !sapp_cons, !sapp_assoc, !sapp_cons, !sapp_nil_l. reflexivity.
Qed.

Lemma object_loop_members (ms : list (string * json)) :
  forall (m : string * json) (pairs : list (string * json)) (fuel : nat)
         (rest : string),
  (forall kv, kv ∈ m :: ms -> reads_from nv (S lvl) (snd kv)) ->
  length (m :: ms) + nv <= fuel ->
  object_loop fuel pairs
    (members_tail lvl m ms (newline_indent (Some 2) lvl +:+ String "}" rest))
  = Ok (JObj (dict (pairs ++ m :: ms)), rest).
Proof.
  induction ms as [|m' ms IH]; intros [key v] pairs fuel rest Hv Hf;
    (destruct fuel as [|fuel]; [simpl in Hf; lia|]);
    pose proof (Hv (key, v) ltac:(left)) as Hkv;
    simpl in Hkv, Hf.
  - simpl members_tail. simpl object_loop.
    rewrite scanstring_escape. simpl. rewrite sapp_nil_l.
    rewrite (proj1 (Hkv fuel _ ltac:(lia))).
    rewrite (proj2 (Hkv fuel _ ltac:(lia))). simpl.
    rewrite ?skip_ws_newline_indent, ?skip_ws_spaces by reflexivity. simpl. reflexivity.
  - simpl members_tail. simpl object_loop.
    rewrite scanstring_escape. simpl. rewrite sapp_nil_l.
    rewrite (proj1 (Hkv fuel _ ltac:(lia))).
    rewrite (proj2 (Hkv fuel _ ltac:(lia))). simpl.
    rewrite ?skip_ws_newline_indent, ?skip_ws_spaces by reflexivity. simpl.
    rewrite (IH m' (pairs ++ [(key, v)]) fuel rest).
    + rewrite <- List.app_assoc. reflexivity.
    + intros kv Hin. apply Hv. right. exact Hin.
    + simpl. lia.
Qed.

(** A non-empty object with members that read back and keys that do not
    repeat reads back. *)
Lemma reads_object (m : string * json) (ms : list (string * json)) :
  (forall kv, kv ∈ m :: ms -> reads_from nv (S lvl) (snd kv)) ->
  dict (m :: ms) = m :: ms ->
  reads_from (S (length (m :: ms) + nv)) lvl (JObj (m :: ms)).
Proof.
  intros Hv Hd fuel k Hf. split; [reflexivity|].
  destruct fuel as [|fuel]; [lia|].
  change (encode (Some 2) lvl (JObj (m :: ms)))
    with ("{" +:+ newline_indent (Some 2) (S lvl)
          +:+ String.concat (member_sep lvl) (map (member_text lvl) (m :: ms))
          +:+ newline_indent (Some 2) lvl +:+ "}").
  rewrite !sapp_assoc, sapp_cons, !sapp_nil_l.
  rewrite (sapp_cons "}" EmptyString k), sapp_nil_l.
  rewrite concat_members.
  simpl scan_once.
  rewrite ?skip_ws_newline_indent, ?skip_ws_spaces by reflexivity. simpl.
  rewrite (object_loop_members ms m [] fuel k Hv) by lia.
  simpl. rewrite Hd. reflexivity.
Qed.

End Members.

End JsonFacts.

Module JsonArrays.
Import JsonFacts.

Local Arguments newline_indent : simpl never.
Local Arguments encode : simpl never.

Lemma skip_ws_spaces_any (n : nat) (t : string) :
  skip_ws (spaces n +:+ t) = skip_ws t.
Proof.
  induction n as [|n IH]; [reflexivity|].
  simpl spaces. rewrite sapp_cons. simpl. exact IH.
Qed.

Lemma skip_ws_newline_indent_any (n lvl : nat) (t : string) :
  skip_ws (newline_indent (Some n) lvl +:+ t) = skip_ws t.
Proof.
  unfold newline_indent. rewrite sapp_cons. simpl. apply skip_ws_spaces_any.
Qed.

(** *** Arrays *)

Section Items.

Variable lvl : nat.
Variable ne : nat.

Lemma concat_items (v : json) (vs : list json) (k : string) :
  String.concat (item_sep lvl) (map (item_text lvl) (v :: vs)) +:+ k = items_tail lvl v vs k.
Proof.
  revert v. induction vs as [|v' vs IH]; intros v.
  - reflexivity.
  - change (String.concat (item_sep lvl) (map (item_text lvl) (v :: v' :: vs)))
      with ((item_text lvl) v +:+ (item_sep lvl)
            +:+ String.concat (item_sep lvl) (map (item_text lvl) (v' :: vs))).
    rewrite !sapp_assoc, IH. reflexivity.
Qed.

Lemma skip_ws_items_tail (v : json) (vs : list json) (k : string) :
  reads_from ne (S lvl) v ->
  skip_ws (items_tail lvl v vs k) = items_tail lvl v vs k.
Proof.
  intros Hv. destruct vs; simpl items_tail; apply (Hv ne); lia.
Qed.

Lemma scan_once_close (fuel : nat) (t : string) (r : json * string) :
  scan_once fuel (String "]" t) = Ok r -> False.
Proof. destruct fuel; simpl; discriminate. Qed.

Lemma eat_close_items (v : json) (vs : list json) (k : string) :
  reads_from ne (S lvl) v ->
  eat "]" (items_tail lvl v vs k) = None.
Proof.
  intros Hv.
  assert (Hs : exists r, scan_once ne (items_tail lvl v vs k) = Ok r).
  { destruct vs; simpl items_tail; eexists; apply (Hv ne); lia. }
  destruct Hs as [r Hs].
  destruct (items_tail lvl v vs k) as [|c t]; [reflexivity|].
  simpl. destruct (Ascii.eqb c "]") eqn:Ec; [|reflexivity].
  apply Ascii.eqb_eq in Ec. subst c. exfalso. eapply scan_once_close, Hs.
Qed.

Lemma array_loop_items (vs : list json) :
  forall (v : json) (values : list json) (fuel : nat) (rest : string),
  (forall x, x ∈ v :: vs -> reads_from ne (S lvl) x) ->
  length (v :: vs) + ne <= fuel ->
  array_loop fuel values
    (items_tail lvl v vs (newline_indent (Some 2) lvl +:+ String "]" rest))
  = Ok (JArr (values ++ v :: vs), rest).
Proof.
  induction vs as [|v' vs IH]; intros v values fuel rest Hv Hf;
    (destruct fuel as [|fuel]; [simpl in Hf; lia|]);
    pose proof (Hv v ltac:(left)) as Hx; simpl in Hf.
  - simpl items_tail. simpl array_loop.
    rewrite (proj2 (Hx fuel _ ltac:(lia))). simpl.
    rewrite ?skip_ws_newline_indent, ?skip_ws_spaces by reflexivity.
    simpl. reflexivity.
  - simpl items_tail. simpl array_loop.
    rewrite (proj2 (Hx fuel _ ltac:(lia))). simpl.
    rewrite ?skip_ws_newline_indent_any, ?skip_ws_spaces_any.
    rewrite skip_ws_items_tail by (apply Hv; right; left).
    rewrite (IH v' (values ++ [v]) fuel rest).
    + rewrite <- List.app_assoc. reflexivity.
    + intros x Hin. apply Hv. right. exact Hin.
    + simpl. lia.
Qed.

Lemma reads_array (v : json) (vs : list json) :
  (forall x, x ∈ v :: vs -> reads_from ne (S lvl) x) ->
  reads_from (S (length (v :: vs) + ne)) lvl (JArr (v :: vs)).
Proof.
  intros Hv fuel k Hf. split; [reflexivity|].
  destruct fuel as [|fuel]; [lia|].
  change (encode (Some 2) lvl (JArr (v :: vs)))
    with ("[" +:+ newline_indent (Some 2) (S lvl)
          +:+ String.concat (item_sep lvl) (map (item_text lvl) (v :: vs))
          +:+ newline_indent (Some 2) lvl +:+ "]").
  rewrite !sapp_assoc, sapp_cons, !sapp_nil_l.
  rewrite (sapp_cons "]" EmptyString k), sapp_nil_l.
  rewrite concat_items.
  simpl scan_once.
  rewrite ?skip_ws_newline_indent_any, ?skip_ws_spaces_any.
  rewrite skip_ws_items_tail by (apply Hv; left).
  rewrite eat_close_items by (apply Hv; left).
  apply (array_loop_items vs v [] fuel k Hv). lia.
Qed.

End Items.

End JsonArrays.

Module StoreFacts.
Import JsonFacts JsonArrays.

Local Arguments newline_indent : simpl never.
Local Arguments encode : simpl never.

Lemma reads_opt_str (lvl : nat) (o : option string) : reads_from 1 lvl (opt_str o).
Proof. destruct o; [apply reads_string|apply reads_null]. Qed.

(** A stored record reads back. *)
Lemma reads_contact (c : Contact) : reads_from 6 1 (to_json c).
Proof.
  unfold to_json, contact_entry.
  refine (reads_object 1 1 _ [_; _; _] _ _).
  - intros kv Hin.
    repeat (apply elem_of_cons in Hin as [->|Hin]);
      [apply reads_string|apply reads_string|apply reads_opt_str
      |apply reads_opt_str|inversion Hin].
  - reflexivity.
Qed.

Lemma elem_of_map {A B} (f : A -> B) (l : list A) (y : B) :
  y ∈ map f l -> exists x, y = f x /\ x ∈ l.
Proof.
  induction l as [|a l IH]; simpl; intros H.
  - inversion H.
  - apply elem_of_cons in H as [->|H].
    + exists a. split; [reflexivity|left].
    + destruct (IH H) as (x & -> & Hx). exists x. split; [reflexivity|right; exact Hx].
Qed.

(** ** Lengths *)

Lemma length_concat_ge (sep : string) (xs : list string) :
  (forall x, x ∈ xs -> 1 <= String.length x) ->
  length xs <= String.length (String.concat sep xs).
Proof.
  induction xs as [|x xs IH]; intros Hx; [simpl; lia|].
  assert (1 <= String.length x) by (apply Hx; left).
  destruct xs as [|y xs].
  - simpl. lia.
  - change (String.concat sep (x :: y :: xs))
      with (x +:+ sep +:+ String.concat sep (y :: xs)).
    rewrite !slength_app.
    assert (length (y :: xs) <= String.length (String.concat sep (y :: xs))).
    { apply IH. intros z Hz. apply Hx. right. exact Hz. }
    simpl in *. lia.
Qed.

Lemma concat_snoc (sep : string) (xs : list string) (x y : string) :
  String.concat sep ((x :: xs) ++ [y])
  = String.concat sep (x :: xs) +:+ sep +:+ y.
Proof.
  revert x. induction xs as [|z xs IH]; intros x.
  - reflexivity.
  - change (String.concat sep ((x :: z :: xs) ++ [y]))
      with (x +:+ sep +:+ String.concat sep ((z :: xs) ++ [y])).
    rewrite IH.
    change (String.concat sep (x :: z :: xs))
      with (x +:+ sep +:+ String.concat sep (z :: xs)).
    rewrite !sapp_assoc. reflexivity.
Qed.

Lemma stored_cons (c : Contact) (l : list Contact) :
  stored (c :: l)
  = "[" +:+ newline_indent (Some 2) 1
    +:+ String.concat record_sep (map record_text (c :: l))
    +:+ newline_indent (Some 2) 0 +:+ "]".
Proof.
  unfold stored, dumps. rewrite <- (map_map to_json (encode (Some 2) 1)).
  reflexivity.
Qed.

Lemma record_text_length (c : Contact) : 1 <= String.length (record_text c).
Proof. unfold record_text, to_json, contact_entry. simpl. lia. Qed.

Lemma stored_length_ge (c : Contact) (l : list Contact) :
  length (c :: l) + 6 <= String.length (stored (c :: l)).
Proof.
  rewrite stored_cons, !slength_app.
  assert (length (map record_text (c :: l))
          <= String.length (String.concat record_sep (map record_text (c :: l)))).
  { apply length_concat_ge. intros x Hx. apply elem_of_map in Hx as [c' [-> _]].
    apply record_text_length. }
  rewrite length_map in H. simpl in *. lia.
Qed.

(** The file only grows when a record is added. *)
Lemma stored_length_mono (l : list Contact) (c : Contact) :
  String.length (stored l) <= String.length (stored (l ++ [c])).
Proof.
  destruct l as [|c0 l].
  - pose proof (stored_length_ge c []). simpl in *. lia.
  - change ((c0 :: l) ++ [c]) with (c0 :: (l ++ [c])).
    rewrite !stored_cons.
    change (map record_text (c0 :: l ++ [c]))
      with (record_text c0 :: map record_text (l ++ [c])).
    rewrite map_app. simpl map.
    change (record_text c0 :: map record_text l ++ [record_text c])
      with ((record_text c0 :: map record_text l) ++ [record_text c]).
    rewrite concat_snoc, !slength_app. lia.
Qed.

(** ** The stored text reads back as the stored records *)

Lemma loads_stored (l : list Contact) :
  Json.loads (stored l) = Ok (JArr (map to_json l)).
Proof.
  destruct l as [|c l]; [reflexivity|].
  assert (Hr : reads_from (S (length (map to_json (c :: l)) + 6)) 0
                 (JArr (map to_json (c :: l)))).
  { apply (reads_array 0 6). intros x Hx.
    change (x ∈ map to_json (c :: l)) in Hx.
    apply elem_of_map in Hx as [c' [-> _]]. apply reads_contact. }
  pose proof (stored_length_ge c l) as Hlen.
  unfold Json.loads.
  destruct (Hr (S (String.length (stored (c :: l)))) EmptyString) as [Hws Hscan].
  { rewrite length_map. lia. }
  unfold stored, dumps in *. rewrite sapp_nil_r in Hws, Hscan.
  rewrite Hws, Hscan. reflexivity.
Qed.

End StoreFacts.

Section Contact.

Variable P : platform.

(** The handler, case by case: each step that can raise, in order. *)
Lemma contact_submit_cases (name email : string) (plan message : option string)
  (w : world) :
  contact_submit P name email plan message w
  = match open_error P SUBMISSIONS_FILE with
    | Some msg => (Raise (server_error (OSError msg)), w)
    | None =>
      match files w !! SUBMISSIONS_FILE with
      | None => (Raise (server_error (FileNotFoundError SUBMISSIONS_FILE)), w)
      | Some text =>
          match Json.loads text with
          | Raise e => (Raise (server_error e), w)
          | Ok data =>
              match py_append data (contact_entry name email plan message) with
              | Raise e => (Raise (server_error e), w)
              | Ok data' =>
                  match f_write P {| f_path := SUBMISSIONS_FILE; f_pos := 0 |}
                          (Json.dumps (Some 2) data') w with
                  | (Ok _, w') => (Ok submission_received, w')
                  | (Raise e, w') => (Raise (server_error e), w')
                  end
              end
          end
      end
    end.
Proof.
  unfold contact_submit. cbv zeta. unfold try_except.
  rewrite bind_unfold. unfold open_.
  destruct (open_error P SUBMISSIONS_FILE); [reflexivity|].
  destruct (files w !! SUBMISSIONS_FILE) as [text|] eqn:Hf; [|reflexivity].
  rewrite bind_unfold. unfold f_read. simpl f_path. simpl f_pos.
  rewrite Hf. simpl default. cbv beta iota.
  change (str_drop 0 text) with text.
  rewrite bind_unfold. unfold lift at 1.
  destruct (Json.loads text) as [data|e]; [|reflexivity].
  rewrite bind_unfold. unfold lift at 1.
  destruct (py_append data _) as [data'|e]; [|reflexivity].
  rewrite bind_unfold. unfold f_seek. simpl f_path.
  destruct (f_write P _ _ w) as [[f'|e] w']; reflexivity.
Qed.

(** A submission to a store that holds [l] leaves a store that holds [l]
    and the new record. *)
Lemma submit_appends (l : list Contact) (c : Contact) (w : world) :
  store_holds w l ->
  may_open P SUBMISSIONS_FILE = true ->
  fits P (stored (l ++ [c])) = true ->
  submit P c w
  = (Ok submission_received,
     set_files (<[SUBMISSIONS_FILE := stored (l ++ [c])]> (files w)) w).
Proof.
  intros Hs Hp Hfit. unfold submit. rewrite contact_submit_cases.
  rewrite (may_open_true _ _ Hp).
  rewrite Hs, StoreFacts.loads_stored. simpl py_append.
  fold (to_json c).
  change (map to_json l ++ [to_json c]) with (map to_json l ++ map to_json [c]).
  rewrite <- map_app. fold (stored (l ++ [c])).
  rewrite (f_write_over P SUBMISSIONS_FILE (stored l)); try assumption.
  - reflexivity.
  - apply StoreFacts.stored_length_mono.
Qed.

Lemma submit_store_holds (l : list Contact) (c : Contact) (w : world) :
  store_holds w l ->
  may_open P SUBMISSIONS_FILE = true ->
  fits P (stored (l ++ [c])) = true ->
  store_holds (snd (submit P c w)) (l ++ [c]).
Proof.
  intros Hs Hp Hfit. rewrite (submit_appends l c w Hs Hp Hfit).
  unfold store_holds. simpl. apply lookup_insert_eq.
Qed.

Lemma stored_array_holds (l : list Contact) (w : world) :
  store_holds w l -> stored_array w = Ok (JArr (map to_json l)).
Proof.
  unfold store_holds, stored_array. intros ->. apply StoreFacts.loads_stored.
Qed.

(** The write does not cut the file: where the text on file is longer than
    the text written over it, the tail of the old text stays, and the file
    no longer reads as JSON. This is why [store_holds] speaks of the text
    as the handler itself writes it, which only grows
    ([StoreFacts.stored_length_mono]). *)
Lemma submit_keeps_the_tail :
  stored_array Sample.w_padded = Ok (JArr [])
  /\ fst (submit Sample.P_up Sample.ana Sample.w_padded) = Ok submission_received
  /\ stored_array (snd (submit Sample.P_up Sample.ana Sample.w_padded))
     = Raise (JSONDecodeError "Extra data").
Proof. split; [|split]; vm_compute; reflexivity. Qed.

(** Start-up leaves the empty store when there was no file. *)
Lemma ensure_submissions_file_creates (w : world) :
  files w !! SUBMISSIONS_FILE = None ->
  may_open P SUBMISSIONS_FILE = true ->
  fits P "[]" = true ->
  ensure_submissions_file P w
  = (Ok tt, set_files (<[SUBMISSIONS_FILE := stored []]> (files w)) w).
Proof.
  intros Hf Hp Hfit. unfold ensure_submissions_file.
  rewrite bind_unfold. unfold os_path_exists. rewrite Hf.
  rewrite bool_decide_eq_false_2 by (intros [x Hx]; discriminate).
  change (negb false) with true. cbv iota.
  rewrite (write_new_file_then P SUBMISSIONS_FILE (Json.dumps None (JArr []))) by assumption.
  reflexivity.
Qed.

End Contact.

(** * Voice selection: the claims *)

(** C3, as stated, fails on the empty tag. Claim C3 says that every tag
    that is a key of the voice map is given the voice mapped to it. A
    variable named [VOICE_] puts the empty key in the map, and the empty
    tag is given the default voice before the map is looked at. *)
Lemma exact_match_empty_tag_counterexample :
  ~ (forall (cfg : config) (lang voice : string),
       VOICE_MAP cfg !! lang = Some voice ->
       choose_voice_for_language cfg lang = voice).
Proof.
  intros H.
  specialize (H (load_config [("VOICE_", "Rachel")]) EmptyString "Rachel").
  vm_compute in H. specialize (H eq_refl). discriminate H.
Qed.

(** C3 (amended). For every non-empty language tag that exactly matches a
    key of the voice map, voice selection returns the value mapped to that
    key, whatever the map holds for the prefix before a separator: the
    exact match takes priority over the prefix match. *)
Theorem exact_match_takes_priority (cfg : config) (lang voice : string) :
  lang <> EmptyString ->
  VOICE_MAP cfg !! lang = Some voice ->
  choose_voice_for_language cfg lang = voice.
Proof. apply choose_voice_exact. Qed.

Lemma exact_match_takes_priority_witness :
  "en-US" <> EmptyString
  /\ VOICE_MAP Sample.cfg_voices !! "en-US" = Some "Rachel"
  /\ VOICE_MAP Sample.cfg_voices !! "en" = Some "Adam"
  /\ choose_voice_for_language Sample.cfg_voices "en-US" = "Rachel".
Proof.
  split; [discriminate|]. split; [reflexivity|]. split; [reflexivity|].
  apply (exact_match_takes_priority Sample.cfg_voices "en-US" "Rachel").
  - discriminate.
  - reflexivity.
Defined.

(** C4, as stated, fails when the whole tag is a key too. Claim C4 says
    that a tag [xx-YY] whose part [xx] is a key of the voice map is given
    the voice of [xx]. With voices for both [en] and [en-US], the tag
    [en-US] is given the voice of [en-US]. *)
Lemma prefix_match_counterexample :
  ~ (forall (cfg : config) (xx yy voice : string),
       Py.contains "-"%char xx = false ->
       VOICE_MAP cfg !! xx = Some voice ->
       choose_voice_for_language cfg (xx +:+ "-" +:+ yy) = voice).
Proof.
  intros H.
  specialize (H Sample.cfg_voices "en" "US" "Adam" eq_refl eq_refl).
  vm_compute in H. discriminate H.
Qed.

(** C4 (amended). For every language tag of the form [xx-YY], where [xx]
    has no separator and is a key of the voice map, and the whole tag is
    not itself a key of the voice map, voice selection returns the voice
    mapped to [xx]. *)
Theorem prefix_match (cfg : config) (xx yy voice : string) :
  Py.contains "-"%char xx = false ->
  VOICE_MAP cfg !! xx = Some voice ->
  VOICE_MAP cfg !! (xx +:+ "-" +:+ yy) = None ->
  choose_voice_for_language cfg (xx +:+ "-" +:+ yy) = voice.
Proof.
  change (xx +:+ "-" +:+ yy) with (xx +:+ String "-"%char yy).
  intros Hx Hm Hn. apply choose_voice_prefix.
  - exact Hn.
  - apply (PyFacts.contains_app "-"%char xx yy).
  - rewrite (PyFacts.split_head "-"%char xx yy Hx). exact Hm.
Qed.

Lemma prefix_match_witness :
  Py.contains "-"%char "en" = false
  /\ VOICE_MAP Sample.cfg_voices !! "en" = Some "Adam"
  /\ VOICE_MAP Sample.cfg_voices !! ("en" +:+ "-" +:+ "GB") = None
  /\ choose_voice_for_language Sample.cfg_voices ("en" +:+ "-" +:+ "GB") = "Adam".
Proof.
  split; [reflexivity|]. split; [reflexivity|]. split; [reflexivity|].
  apply (prefix_match Sample.cfg_voices "en" "GB" "Adam"); reflexivity.
Defined.

(** C5. Voice selection returns the default voice in every fallback case:
    when the tag is empty; when the tag is not a key of the voice map and
    has no separator; and when the tag is not a key of the voice map and
    the prefix before its first separator is not a key either. *)
Theorem fallback_is_default (cfg : config) (lang : string) :
  lang = EmptyString
  \/ (VOICE_MAP cfg !! lang = None /\ Py.contains "-"%char lang = false)
  \/ (VOICE_MAP cfg !! lang = None
      /\ exists prefix rest,
           lang = prefix +:+ "-" +:+ rest
           /\ Py.contains "-"%char prefix = false
           /\ VOICE_MAP cfg !! prefix = None) ->
  choose_voice_for_language cfg lang = ELEVENLABS_VOICE_DEFAULT cfg.
Proof.
  intros [->|[[Hm Hc]|[Hm (prefix & rest & -> & Hp & Hn)]]].
  - apply choose_voice_empty.
  - apply choose_voice_no_separator; assumption.
  - change (prefix +:+ "-" +:+ rest) with (prefix +:+ String "-"%char rest) in *.
    apply choose_voice_no_prefix; [exact Hm|].
    rewrite (PyFacts.split_head "-"%char prefix rest Hp). exact Hn.
Qed.

Lemma fallback_is_default_witness :
  choose_voice_for_language Sample.cfg_voices "" = "Bella"
  /\ choose_voice_for_language Sample.cfg_voices "fr" = "Bella"
  /\ choose_voice_for_language Sample.cfg_voices "pt-BR" = "Bella".
Proof.
  split; [|split].
  - apply (fallback_is_default Sample.cfg_voices ""). left. reflexivity.
  - apply (fallback_is_default Sample.cfg_voices "fr"). right; left.
    split; reflexivity.
  - apply (fallback_is_default Sample.cfg_voices "pt-BR"). right; right.
    split; [reflexivity|]. exists "pt", "BR".
    split; [reflexivity|]. split; reflexivity.
Defined.

(** * The voice agent: the claims *)

Lemma lang_of_no_upper (language : option string) :
  Py.has_upper (lang_of language) = false.
Proof. apply PyFacts.lower_no_upper. Qed.

Lemma voice_agent_without_upper (P : platform) (cfg : config)
  (filename audio_bytes : string) (language : option string) :
  voice_agent P (without_upper_keys cfg) filename audio_bytes language
  = voice_agent P cfg filename audio_bytes language.
Proof.
  unfold voice_agent. cbv zeta. fold (lang_of language).
  rewrite (choose_voice_without_upper cfg _ (lang_of_no_upper language)).
  reflexivity.
Qed.

Lemma no_post_snoc (calls : list net_call) (c : net_call) :
  no_post calls ->
  (forall url headers body timeout, c <> CallPost url headers body timeout) ->
  no_post (calls ++ [c]).
Proof.
  intros Hn Hc url headers body timeout Hin.
  apply elem_of_app in Hin as [Hin|Hin].
  - exact (Hn _ _ _ _ Hin).
  - apply list_elem_of_singleton in Hin. exact (Hc _ _ _ _ (eq_sym Hin)).
Qed.



Lemma asr_sentinel_unusable :
  asr_usable "[ASR not configured - set OPENAI_API_KEY]" = false.
Proof. reflexivity. Qed.

(** A request returns only if its upload was written; then its result is
    assembled from what the three wrappers returned. *)
Lemma voice_agent_returns (P : platform) (cfg : config)
  (filename audio_bytes : string) (language : option string) (w w' : world)
  (r : VoiceAgentResult) :
  voice_agent P cfg filename audio_bytes language w = (Ok r, w') ->
  upload_ok P filename audio_bytes w = true
  /\ exists w2 w3 b w4,
       run_asr_local P cfg (tmp_name_of P filename w) (lang_of language)
         (after_upload P filename audio_bytes w) = (Ok (transcript r), w2)
       /\ llm_step P cfg (transcript r) (lang_of language) w2
          = (Ok (response_text r), w3)
       /\ run_tts_elevenlabs P cfg (response_text r)
            (choose_voice_for_language cfg (lang_of language))
            (os_path_join "static" (out_filename_of P w)) (next_draw w3)
          = (Ok b, w4)
       /\ net w' = net w4
       /\ tts_audio_url r
          = (if b then Some ("/static/" +:+ out_filename_of P w) else None).
Proof.
  intros Hv.
  destruct (upload_ok P filename audio_bytes w) eqn:Hup.
  - split; [reflexivity|].
    destruct (voice_agent_run P cfg filename audio_bytes language w Hup)
      as (t & w2 & resp & w3 & b & w4 & w5 & Ht & Hl & Hs & Hn & Hv').
    rewrite Hv in Hv'. inversion Hv'; subst r w'. simpl.
    exists w2, w3, b, w4. auto.
  - destruct (voice_agent_upload_fails P cfg filename audio_bytes language w Hup)
      as (e & w'' & Hv' & _).
    rewrite Hv in Hv'. discriminate.
Qed.

(** C1. If the ASR credentials are absent, the result that the voice agent
    returns has the fixed "ASR not configured" sentinel as its transcript
    and the fixed "LLM unavailable" sentinel as its response text. The LLM
    adapter is skipped: nothing but the speech-synthesis request is added
    to the log of network calls. The agent does return a result whenever
    its upload is written to the temporary file. *)
Theorem asr_not_configured_sentinels (P : platform) (cfg : config)
  (filename audio_bytes : string) (language : option string) (w : world) :
  OPENAI_API_KEY cfg = EmptyString ->
  (forall r w',
     voice_agent P cfg filename audio_bytes language w = (Ok r, w') ->
     transcript r = "[ASR not configured - set OPENAI_API_KEY]"
     /\ response_text r = "[LLM unavailable due to ASR error or missing config]"
     /\ (net w' = net w
         \/ net w' = net w ++ [tts_call cfg (response_text r)
                                 (choose_voice_for_language cfg (lang_of language))]))
  /\ (upload_ok P filename audio_bytes w = true ->
      exists r w', voice_agent P cfg filename audio_bytes language w = (Ok r, w')).
Proof.
  intros Hk. split.
  - intros r w' Hv.
    apply voice_agent_returns in Hv
      as (_ & w2 & w3 & b & w4 & Ht & Hl & Hs & Hn & _).
    rewrite run_asr_local_no_key in Ht by exact Hk. inversion Ht as [[Ht' Hw2]].
    rewrite <- Ht' in Hl. unfold llm_step in Hl.
    rewrite asr_sentinel_unusable in Hl. inversion Hl as [[Hr Hw3]].
    split; [reflexivity|]. split; [reflexivity|].
    rewrite Hn. apply run_tts_net in Hs. rewrite <- Hw3, <- Hw2 in Hs.
    simpl in Hs. rewrite <- Hr in Hs. exact Hs.
  - intros Hup.
    destruct (voice_agent_run P cfg filename audio_bytes language w Hup)
      as (t & w2 & resp & w3 & b & w4 & w5 & _ & _ & _ & _ & Hv).
    eexists _, _. exact Hv.
Qed.

Lemma asr_not_configured_sentinels_witness :
  OPENAI_API_KEY Sample.cfg_none = EmptyString
  /\ exists r w',
       voice_agent Sample.P_up Sample.cfg_none "clip.wav" "RIFF" (Some "es")
         Sample.w_empty = (Ok r, w')
       /\ transcript r = "[ASR not configured - set OPENAI_API_KEY]"
       /\ response_text r = "[LLM unavailable due to ASR error or missing config]".
Proof.
  split; [reflexivity|].
  destruct (asr_not_configured_sentinels Sample.P_up Sample.cfg_none
              "clip.wav" "RIFF" (Some "es") Sample.w_empty eq_refl)
    as (Hres & Hret).
  destruct (Hret eq_refl) as (r & w' & Hv).
  destruct (Hres r w' Hv) as (Ht & Hr & _).
  exists r, w'. split; [exact Hv|]. split; [exact Ht|exact Hr].
Defined.

(** C6. Whatever the input and whatever the providers do, the ASR adapter
    and the LLM adapter return a string and never raise; when the provider
    raises, the string is the sentinel that embeds the message of the
    failure. The TTS adapter returns a boolean and never raises; it returns
    false when credentials are absent, when the request raises, when the
    status is not 200, when the stream fails and when the output file cannot
    be opened; it returns true only when the status is 200 and the whole
    streamed body is in the output file. *)
Theorem adapters_never_raise (P : platform) (cfg : config) :
  (forall (path lang : string) (w : world),
     exists s w', run_asr_local P cfg path lang w = (Ok s, w'))
  /\ (forall (path lang audio : string) (w : world) (e : exn),
        OPENAI_API_KEY cfg <> EmptyString ->
        may_open P path = true ->
        files w !! path = Some audio ->
        openai_Audio_transcribe P "whisper-1" audio lang = Raise e ->
        fst (run_asr_local P cfg path lang w)
        = Ok ("[ASR error: " +:+ str_exn e +:+ "]"))
  /\ (forall (transcript lang : string) (w : world),
        exists s w', run_llm_local P cfg transcript lang w = (Ok s, w'))
  /\ (forall (transcript lang : string) (w : world) (e : exn),
        OPENAI_API_KEY cfg <> EmptyString ->
        openai_ChatCompletion_create P (OPENAI_MODEL cfg)
          (chat_messages transcript lang) 500 = Raise e ->
        fst (run_llm_local P cfg transcript lang w)
        = Ok ("[LLM error: " +:+ str_exn e +:+ "]"))
  /\ (forall (text voice out_path : string) (w : world),
        exists b w', run_tts_elevenlabs P cfg text voice out_path w = (Ok b, w'))
  /\ (forall (text voice out_path : string) (w : world),
        ELEVENLABS_API_KEY cfg = EmptyString
        \/ (exists e, tts_request P cfg text voice = Raise e)
        \/ (exists r, tts_request P cfg text voice = Ok r
              /\ (status_code r <> 200
                  \/ stream_error r <> None
                  \/ may_open P out_path = false)) ->
        fst (run_tts_elevenlabs P cfg text voice out_path w) = Ok false)
  /\ (forall (text voice out_path : string) (w w' : world),
        run_tts_elevenlabs P cfg text voice out_path w = (Ok true, w') ->
        exists r, tts_request P cfg text voice = Ok r
          /\ status_code r = 200
          /\ stream_error r = None
          /\ files w' !! out_path = Some (body_of r)).
Proof.
  split; [|split; [|split; [|split; [|split; [|split]]]]].
  - apply run_asr_local_total.
  - intros path lang audio w e Hk Hp Hf He.
    rewrite (run_asr_local_call P cfg path lang audio w Hk Hp Hf), He.
    reflexivity.
  - apply run_llm_local_total.
  - intros transcript lang w e Hk He.
    rewrite (run_llm_local_call P cfg transcript lang w Hk), He. reflexivity.
  - apply run_tts_total.
  - intros text voice out_path w Hfail.
    destruct (run_tts_total P cfg text voice out_path w) as (b & w' & Hb).
    rewrite Hb. simpl. destruct b; [|reflexivity]. exfalso.
    apply run_tts_true in Hb as (Hk & Hp & r & Hr & Hs & Hse & _).
    destruct Hfail as [Hk'|[[e He]|(r' & Hr' & [Hs'|[Hse'|Hp']])]];
      congruence.
  - intros text voice out_path w w' Hb.
    apply run_tts_true in Hb as (_ & _ & r & Hr). exists r. exact Hr.
Qed.

Lemma adapters_never_raise_witness :
  fst (run_asr_local Sample.P_down Sample.cfg_keys "/tmp/clip.wav" "es"
         {| files := {[ "/tmp/clip.wav" := "RIFF" ]}; net := []; draws := 0 |})
  = Ok "[ASR error: Connection refused]"
  /\ fst (run_llm_local Sample.P_down Sample.cfg_keys "hola" "es" Sample.w_empty)
     = Ok "[LLM error: Rate limit reached]"
  /\ fst (run_tts_elevenlabs Sample.P_down Sample.cfg_keys "hola" "Bella"
            "static/out.mp3" Sample.w_empty) = Ok false
  /\ fst (run_tts_elevenlabs Sample.P_401 Sample.cfg_keys "hola" "Bella"
            "static/out.mp3" Sample.w_empty) = Ok false
  /\ exists r,
       tts_request Sample.P_up Sample.cfg_keys "hola" "Bella" = Ok r
       /\ status_code r = 200
       /\ stream_error r = None
       /\ files (snd (run_tts_elevenlabs Sample.P_up Sample.cfg_keys "hola"
                        "Bella" "static/out.mp3" Sample.w_empty))
            !! "static/out.mp3" = Some (body_of r).
Proof.
  destruct (adapters_never_raise Sample.P_down Sample.cfg_keys)
    as (_ & Hasr & _ & Hllm & _ & Htts & _).
  destruct (adapters_never_raise Sample.P_401 Sample.cfg_keys)
    as (_ & _ & _ & _ & _ & Htts401 & _).
  destruct (adapters_never_raise Sample.P_up Sample.cfg_keys)
    as (_ & _ & _ & _ & _ & _ & Htrue).
  split; [|split; [|split; [|split]]].
  - apply (Hasr "/tmp/clip.wav" "es" "RIFF"
             {| files := {[ "/tmp/clip.wav" := "RIFF" ]}; net := []; draws := 0 |}
             (Exception "Connection refused")).
    + discriminate.
    + reflexivity.
    + reflexivity.
    + reflexivity.
  - apply (Hllm "hola" "es" Sample.w_empty (Exception "Rate limit reached")).
    + discriminate.
    + reflexivity.
  - apply Htts. right; left. exists (Exception "Read timed out"). reflexivity.
  - apply Htts401. right; right. eexists. split; [reflexivity|].
    left. simpl. discriminate.
  - apply (Htrue "hola" "Bella" "static/out.mp3" Sample.w_empty). reflexivity.
Defined.

(** C7. When TTS credentials are absent the TTS adapter returns false and
    leaves the world as it was: no request is logged. In a voice request
    that returns, the adapter was run once, on the response text, with the
    voice selected for the language, writing to
    [static/<generated file name>]; when it returned false the
    [tts_audio_url] of the result is null, when it returned true it is
    [/static/] followed by the generated file name. A request returns
    whenever its upload is written to the temporary file. *)
Theorem tts_audio_url_follows_tts (P : platform) (cfg : config) :
  (forall (text voice out_path : string) (w : world),
     ELEVENLABS_API_KEY cfg = EmptyString ->
     run_tts_elevenlabs P cfg text voice out_path w = (Ok false, w))
  /\ (forall (filename audio_bytes : string) (language : option string)
             (w w' : world) (r : VoiceAgentResult),
        voice_agent P cfg filename audio_bytes language w = (Ok r, w') ->
        exists w3 b w4,
          draws w3 = S (S (draws w))
          /\ run_tts_elevenlabs P cfg (response_text r)
               (choose_voice_for_language cfg (lang_of language))
               (os_path_join "static" (out_filename_of P w)) w3 = (Ok b, w4)
          /\ net w' = net w4
          /\ tts_audio_url r
             = (if b then Some ("/static/" +:+ out_filename_of P w) else None)
          /\ (ELEVENLABS_API_KEY cfg = EmptyString ->
              tts_audio_url r = None /\ (no_post (net w) -> no_post (net w'))))
  /\ (forall (filename audio_bytes : string) (language : option string)
             (w : world),
        upload_ok P filename audio_bytes w = true ->
        exists r w',
          voice_agent P cfg filename audio_bytes language w = (Ok r, w')).
Proof.
  split; [|split].
  - intros. apply run_tts_no_key. assumption.
  - intros filename audio_bytes language w w' r Hv.
    apply voice_agent_returns in Hv
      as (_ & w2 & w3 & b & w4 & Ht & Hl & Hs & Hn & Hu).
    exists (next_draw w3), b, w4.
    apply run_asr_local_frame in Ht as (_ & Hd2 & Hn2).
    apply llm_step_frame in Hl as (_ & Hd3 & Hn3).
    split; [simpl; rewrite Hd3, Hd2; reflexivity|].
    split; [exact Hs|]. split; [exact Hn|]. split; [exact Hu|].
    intros Hk. rewrite run_tts_no_key in Hs by exact Hk.
    inversion Hs as [[Hb Hw4]]. rewrite <- Hb in Hu. split; [exact Hu|].
    intros Hnp. rewrite Hn, <- Hw4. simpl.
    assert (Hnp2 : no_post (net w2)).
    { destruct Hn2 as [->|(m & a & l & ->)]; [exact Hnp|].
      apply no_post_snoc; [exact Hnp|discriminate]. }
    destruct Hn3 as [->|(m & a & l & ->)]; [exact Hnp2|].
    apply no_post_snoc; [exact Hnp2|discriminate].
  - intros filename audio_bytes language w Hup.
    destruct (voice_agent_run P cfg filename audio_bytes language w Hup)
      as (t & w2 & resp & w3 & b & w4 & w5 & _ & _ & _ & _ & Hv).
    eexists _, _. exact Hv.
Qed.

Lemma tts_audio_url_follows_tts_witness :
  (exists w',
     voice_agent Sample.P_up Sample.cfg_keys "clip.wav" "RIFF" (Some "es")
       Sample.w_empty
     = (Ok {| transcript := "hola";
              response_text := "Buenos dias.";
              tts_audio_url :=
                Some "/static/generated_00000000000000000000000000000001.mp3" |},
        w'))
  /\ (exists r w',
        voice_agent Sample.P_up Sample.cfg_none "clip.wav" "RIFF" (Some "es")
          Sample.w_empty = (Ok r, w')
        /\ tts_audio_url r = None
        /\ no_post (net w')).
Proof.
  split.
  - destruct (tts_audio_url_follows_tts Sample.P_up Sample.cfg_keys)
      as (_ & _ & Hret).
    destruct (Hret "clip.wav" "RIFF" (Some "es") Sample.w_empty eq_refl)
      as (r & w' & Hv).
    exists w'. rewrite Hv. f_equal. f_equal.
    vm_compute in Hv. inversion Hv. reflexivity.
  - destruct (tts_audio_url_follows_tts Sample.P_up Sample.cfg_none)
      as (_ & Hurl & Hret).
    destruct (Hret "clip.wav" "RIFF" (Some "es") Sample.w_empty eq_refl)
      as (r & w' & Hv).
    destruct (Hurl "clip.wav" "RIFF" (Some "es") Sample.w_empty w' r Hv)
      as (w3 & b & w4 & _ & _ & _ & _ & Hnone).
    destruct (Hnone eq_refl) as (Hu & Hp).
    exists r, w'. split; [exact Hv|]. split; [exact Hu|].
    apply Hp. intros url headers body timeout Hin. inversion Hin.
Defined.

(** * The contact store: the claims *)

Lemma fits_shorter (P : platform) (a b : string) :
  String.length a <= String.length b -> fits P b = true -> fits P a = true.
Proof.
  unfold fits. destruct (disk_room P) as [room|]; [|reflexivity].
  intros Hl Hb. apply Nat.leb_le in Hb. apply Nat.leb_le. lia.
Qed.








(** * Further lemmas on files and wrappers *)

Lemma f_write_frame (P : platform) (f : file) (data : string) (w w' : world)
  (r : result file) :
  f_write P f data w = (r, w') ->
  net w' = net w /\ draws w' = draws w
  /\ (forall p, p <> f_path f -> files w' !! p = files w !! p)
  /\ (forall f', r = Ok f' -> f_path f' = f_path f).
Proof.
  unfold f_write.
  destruct (disk_room P) as [room|]; [destruct (room <? _)|];
    intros H; inversion H; subst; simpl;
    (split; [reflexivity|]); (split; [reflexivity|]);
    (split; [intros p Hp; apply lookup_insert_ne; congruence|]);
    intros f' Hf; inversion Hf; reflexivity.
Qed.

Lemma write_chunks_frame (P : platform) (chunks : list string) (err : option exn) :
  forall (f : file) (w w' : world) (r : result file),
  write_chunks P f chunks err w = (r, w') ->
  forall p, p <> f_path f -> files w' !! p = files w !! p.
Proof.
  induction chunks as [|chunk chunks IH]; intros f w w' r.
  - simpl. destruct err; intros H; inversion H; reflexivity.
  - simpl. rewrite bind_unfold. destruct (Py.truthy chunk).
    + destruct (f_write P f chunk w) as [[f1|e] w1] eqn:Hw;
        apply f_write_frame in Hw as (_ & _ & Hfr & Hp).
      * intros H p Hne. rewrite (IH _ _ _ _ H).
        -- apply Hfr, Hne.
        -- rewrite (Hp f1 eq_refl). exact Hne.
      * intros H p Hne. inversion H; subst. apply Hfr, Hne.
    + apply IH.
Qed.

Section Effects.

Variable P : platform.
Variable cfg : config.

(** What the speech-synthesis wrapper does to the world, whatever it
    returns: it draws nothing, logs its one request when it has a key, and
    touches no file but its output file. *)
Lemma run_tts_effects (text voice out_path : string) (w w' : world)
  (r : result bool) :
  run_tts_elevenlabs P cfg text voice out_path w = (r, w') ->
  draws w' = draws w
  /\ net w' = net w ++ tts_calls cfg text voice
  /\ (forall p, p <> out_path -> files w' !! p = files w !! p).
Proof.
  intros H. split; [exact (run_tts_draws P cfg _ _ _ _ _ _ H)|].
  unfold tts_calls.
  destruct (decide (ELEVENLABS_API_KEY cfg = EmptyString)) as [Hk|Hk].
  { rewrite run_tts_no_key in H by exact Hk. inversion H; subst.
    rewrite Hk. simpl. rewrite app_nil_r. auto. }
  rewrite run_tts_call in H by exact Hk.
  rewrite (proj2 (PyFacts.truthy_true _) Hk).
  destruct (tts_request P cfg text voice) as [resp|e].
  2:{ inversion H; subst. simpl. auto. }
  destruct (status_code resp =? 200).
  2:{ inversion H; subst. simpl. auto. }
  rewrite bind_unfold in H. unfold open_ in H.
  destruct (open_error P out_path).
  { inversion H; subst. simpl. auto. }
  destruct (write_chunks P _ _ _ _) as [[f'|e] w2] eqn:Hw;
    pose proof (write_chunks_draws P _ _ _ _ _ _ Hw) as [_ Hn];
    pose proof (write_chunks_frame P _ _ _ _ _ _ Hw) as Hfr;
    inversion H; subst; (split; [exact Hn|]);
    intros p Hp; rewrite (Hfr p) by (simpl; exact Hp);
    simpl; apply lookup_insert_ne; congruence.
Qed.

Lemma run_asr_local_outcome (path lang audio : string) (w : world) :
  may_open P path = true ->
  files w !! path = Some audio ->
  run_asr_local P cfg path lang w
  = (Ok (asr_outcome P cfg audio lang),
     {| files := files w; net := net w ++ asr_calls cfg audio lang;
        draws := draws w |}).
Proof.
  intros Hp Hf. unfold asr_outcome, asr_calls.
  destruct (decide (OPENAI_API_KEY cfg = EmptyString)) as [Hk|Hk].
  - rewrite run_asr_local_no_key by exact Hk. rewrite Hk. simpl.
    rewrite app_nil_r. destruct w; reflexivity.
  - rewrite (run_asr_local_call P cfg path lang audio w Hk Hp Hf).
    rewrite (proj2 (PyFacts.truthy_true _) Hk). reflexivity.
Qed.

Lemma asr_error_unusable (msg : string) :
  asr_usable ("[ASR error: " +:+ msg +:+ "]") = false.
Proof.
  unfold asr_usable.
  change ("[ASR error: " +:+ msg +:+ "]")
    with ("[ASR error" +:+ (": " +:+ msg +:+ "]")).
  rewrite PyFacts.startswith_app. simpl. reflexivity.
Qed.

(** A usable transcript can only come from the provider. *)
Lemma asr_outcome_usable (audio lang : string) :
  asr_usable (asr_outcome P cfg audio lang) = true ->
  OPENAI_API_KEY cfg <> EmptyString.
Proof.
  unfold asr_outcome. intros H Hk. rewrite Hk in H. simpl in H.
  rewrite asr_sentinel_unusable in H. discriminate.
Qed.

Lemma llm_step_outcome (transcript lang : string) (w : world) :
  (asr_usable transcript = true -> OPENAI_API_KEY cfg <> EmptyString) ->
  llm_step P cfg transcript lang w
  = (Ok (if asr_usable transcript then llm_outcome P cfg transcript lang
         else "[LLM unavailable due to ASR error or missing config]"),
     {| files := files w; net := net w ++ llm_calls cfg transcript lang;
        draws := draws w |}).
Proof.
  intros Hk. unfold llm_step, llm_calls, llm_outcome.
  destruct (asr_usable transcript).
  - rewrite (run_llm_local_call P cfg transcript lang w (Hk eq_refl)).
    reflexivity.
  - simpl. rewrite app_nil_r. destruct w; reflexivity.
Qed.

End Effects.

(** * One voice request, step by step, with every world written out *)

Lemma out_path_of_eq (P : platform) (w : world) :
  out_path_of P w = "static/generated_" +:+ uuid4_hex P (S (draws w)) +:+ ".mp3".
Proof. reflexivity. Qed.

Lemma tmp_is_not_out (P : platform) (filename : string) (w : world) :
  tmp_name_of P filename w <> out_path_of P w.
Proof.
  intros H. apply (f_equal first_char) in H. vm_compute in H. discriminate H.
Qed.

Section Steps.

Variable P : platform.
Variable cfg : config.

Lemma remove_existing (path content : string) (w : world) :
  files w !! path = Some content ->
  may_open P path = true ->
  try_except (os_remove P path) (fun _ => mret tt) w
  = (Ok tt, set_files (delete path (files w)) w).
Proof.
  intros Hf Hp. unfold try_except, os_remove.
  rewrite Hf, (may_open_true _ _ Hp). reflexivity.
Qed.

Lemma voice_agent_steps (filename audio_bytes : string)
  (language : option string) (w : world) :
  upload_ok P filename audio_bytes w = true ->
  let lang := lang_of language in
  let t := asr_outcome P cfg audio_bytes lang in
  exists b w4,
    run_tts_elevenlabs P cfg (response_for P cfg t lang)
      (choose_voice_for_language cfg lang) (out_path_of P w)
      (before_tts P cfg filename audio_bytes language w) = (Ok b, w4)
    /\ voice_agent P cfg filename audio_bytes language w
       = (Ok {| transcript := t;
                response_text := response_for P cfg t lang;
                tts_audio_url :=
                  if b then Some ("/static/" +:+ out_filename_of P w) else None |},
          set_files (delete (tmp_name_of P filename w) (files w4)) w4).
Proof.
  intros Hup lang t. pose proof Hup as Hup'.
  apply andb_prop in Hup' as [Hopen Hfit].
  destruct (run_tts_total P cfg (response_for P cfg t lang)
              (choose_voice_for_language cfg lang) (out_path_of P w)
              (before_tts P cfg filename audio_bytes language w)) as (b & w4 & Hs).
  exists b, w4. split; [exact Hs|].
  assert (Hasr : run_asr_local P cfg (tmp_name_of P filename w) lang
                   (after_upload P filename audio_bytes w)
                 = (Ok t, {| files := files (after_upload P filename audio_bytes w);
                             net := net w ++ asr_calls cfg audio_bytes lang;
                             draws := S (draws w) |})).
  { apply (run_asr_local_outcome P cfg _ lang audio_bytes); [exact Hopen|].
    simpl. apply lookup_insert_eq. }
  assert (Hllm : llm_step P cfg t lang
                   {| files := files (after_upload P filename audio_bytes w);
                      net := net w ++ asr_calls cfg audio_bytes lang;
                      draws := S (draws w) |}
                 = (Ok (response_for P cfg t lang),
                    {| files := files (after_upload P filename audio_bytes w);
                       net := (net w ++ asr_calls cfg audio_bytes lang)
                              ++ llm_calls cfg t lang;
                       draws := S (draws w) |})).
  { apply (llm_step_outcome P cfg t lang). apply asr_outcome_usable. }
  assert (Hrm : try_except (os_remove P (tmp_name_of P filename w))
                  (fun _ => mret tt) w4
                = (Ok tt, set_files (delete (tmp_name_of P filename w) (files w4)) w4)).
  { apply run_tts_effects in Hs as (_ & _ & Hfr).
    apply (remove_existing _ audio_bytes); [|exact Hopen].
    rewrite Hfr by apply tmp_is_not_out. simpl. apply lookup_insert_eq. }
  unfold voice_agent. cbv zeta.
  rewrite bind_unfold. unfold uuid4_hex_ at 1. cbv beta iota.
  fold (tmp_name_of P filename w).
  rewrite (write_new_file_then P (tmp_name_of P filename w) audio_bytes)
    by assumption.
  change (set_files _ (next_draw w)) with (after_upload P filename audio_bytes w).
  fold (lang_of language). fold lang.
  rewrite (bind_ok _ _ _ _ _ Hasr).
  fold (asr_usable t). fold (llm_step P cfg t lang).
  rewrite (bind_ok _ _ _ _ _ Hllm).
  rewrite bind_unfold. unfold uuid4_hex_ at 1. cbv beta iota.
  simpl draws. fold (out_filename_of P w). fold (out_path_of P w).
  change (next_draw _) with (before_tts P cfg filename audio_bytes language w).
  rewrite (bind_ok _ _ _ _ _ Hs).
  rewrite (bind_ok _ _ _ _ _ Hrm).
  reflexivity.
Qed.

(** The same for a request known to have returned. *)
Lemma voice_agent_result (filename audio_bytes : string)
  (language : option string) (w w' : world) (r : VoiceAgentResult) :
  voice_agent P cfg filename audio_bytes language w = (Ok r, w') ->
  let lang := lang_of language in
  let t := asr_outcome P cfg audio_bytes lang in
  upload_ok P filename audio_bytes w = true
  /\ exists b w4,
       run_tts_elevenlabs P cfg (response_for P cfg t lang)
         (choose_voice_for_language cfg lang) (out_path_of P w)
         (before_tts P cfg filename audio_bytes language w) = (Ok b, w4)
       /\ r = {| transcript := t;
                 response_text := response_for P cfg t lang;
                 tts_audio_url :=
                   if b then Some ("/static/" +:+ out_filename_of P w) else None |}
       /\ w' = set_files (delete (tmp_name_of P filename w) (files w4)) w4.
Proof.
  intros Hv lang t.
  destruct (upload_ok P filename audio_bytes w) eqn:Hup.
  - split; [reflexivity|].
    destruct (voice_agent_steps filename audio_bytes language w Hup)
      as (b & w4 & Hs & Hv').
    rewrite Hv in Hv'. inversion Hv'. exists b, w4. auto.
  - destruct (voice_agent_upload_fails P cfg filename audio_bytes language w Hup)
      as (msg & w'' & Hv' & _).
    rewrite Hv in Hv'. discriminate.
Qed.

End Steps.

(** * Further properties of the voice agent *)

(** X1. The transcript of a returned voice request is decided by the
    credentials and the transcription provider alone, which is sent the
    uploaded bytes and the lower-cased language: without credentials it is
    the "not configured" sentinel; with credentials it is the [text] field
    of the provider's answer, the empty string when the answer has no such
    field, and the "ASR error" sentinel with the message when the provider
    raises. *)
Theorem transcript_of_request (P : platform) (cfg : config)
  (filename audio_bytes : string) (language : option string) (w w' : world)
  (r : VoiceAgentResult) :
  voice_agent P cfg filename audio_bytes language w = (Ok r, w') ->
  (OPENAI_API_KEY cfg = EmptyString ->
   transcript r = "[ASR not configured - set OPENAI_API_KEY]")
  /\ (OPENAI_API_KEY cfg <> EmptyString ->
      forall resp,
        openai_Audio_transcribe P "whisper-1" audio_bytes (lang_of language)
        = Ok resp ->
        transcript r = default EmptyString (resp !! "text"))
  /\ (OPENAI_API_KEY cfg <> EmptyString ->
      forall e,
        openai_Audio_transcribe P "whisper-1" audio_bytes (lang_of language)
        = Raise e ->
        transcript r = "[ASR error: " +:+ str_exn e +:+ "]").
Proof.
  intros Hv. apply voice_agent_result in Hv as (_ & b & w4 & _ & -> & _).
  simpl. unfold asr_outcome. split; [|split].
  - intros ->. reflexivity.
  - intros Hk resp ->. rewrite (proj2 (PyFacts.truthy_true _) Hk). reflexivity.
  - intros Hk e ->. rewrite (proj2 (PyFacts.truthy_true _) Hk). reflexivity.
Qed.

Lemma transcript_of_request_witness :
  exists r w',
    voice_agent Cases.P_silent Sample.cfg_keys "clip.wav" "RIFF" (Some "ES")
      Sample.w_empty = (Ok r, w')
    /\ transcript r = EmptyString.
Proof.
  destruct (voice_agent Cases.P_silent Sample.cfg_keys "clip.wav" "RIFF"
              (Some "ES") Sample.w_empty) as [[r|e] w'] eqn:Hv;
    [|vm_compute in Hv; discriminate Hv].
  exists r, w'. split; [reflexivity|].
  destruct (transcript_of_request _ _ _ _ _ _ _ _ Hv) as (_ & Hok & _).
  exact (Hok ltac:(discriminate) ∅ eq_refl).
Defined.

(** X2. The response text of a returned voice request: when the transcript
    is empty or begins with [[ASR error] or [[ASR not configured] (also
    where the provider itself transcribed such a text), it is the "LLM
    unavailable" sentinel; otherwise it is the stripped content of the first
    choice of the chat provider, which was sent the configured model, the
    two messages built from the transcript and the language, and the bound
    of 500 tokens; the "LLM error" sentinel with the message when that
    provider raises, and the sentinel with "list index out of range" when
    it answers with no choice. The "LLM not configured" sentinel never
    reaches the response. *)
Theorem response_text_of_request (P : platform) (cfg : config)
  (filename audio_bytes : string) (language : option string) (w w' : world)
  (r : VoiceAgentResult) :
  voice_agent P cfg filename audio_bytes language w = (Ok r, w') ->
  let chat := openai_ChatCompletion_create P (OPENAI_MODEL cfg)
                (chat_messages (transcript r) (lang_of language)) 500 in
  (asr_usable (transcript r) = false ->
   response_text r = "[LLM unavailable due to ASR error or missing config]")
  /\ (asr_usable (transcript r) = true ->
      (forall content rest, chat = Ok (content :: rest) ->
         response_text r = Py.strip content)
      /\ (chat = Ok [] ->
          response_text r = "[LLM error: list index out of range]")
      /\ (forall e, chat = Raise e ->
            response_text r = "[LLM error: " +:+ str_exn e +:+ "]")).
Proof.
  intros Hv. apply voice_agent_result in Hv as (_ & b & w4 & _ & -> & _).
  simpl. unfold response_for, llm_outcome. split.
  - intros ->. reflexivity.
  - intros ->. split; [|split].
    + intros content rest ->. reflexivity.
    + intros ->. reflexivity.
    + intros e ->. reflexivity.
Qed.

Lemma response_text_of_request_witness :
  exists r w',
    voice_agent Sample.P_up Sample.cfg_keys "clip.wav" "RIFF" (Some "ES")
      Sample.w_empty = (Ok r, w')
    /\ asr_usable (transcript r) = true
    /\ response_text r = "Buenos dias.".
Proof.
  destruct (voice_agent Sample.P_up Sample.cfg_keys "clip.wav" "RIFF"
              (Some "ES") Sample.w_empty) as [[r|e] w'] eqn:Hv;
    [|vm_compute in Hv; discriminate Hv].
  exists r, w'. split; [reflexivity|].
  assert (Hu : asr_usable (transcript r) = true).
  { vm_compute in Hv. inversion Hv. reflexivity. }
  split; [exact Hu|].
  destruct (response_text_of_request _ _ _ _ _ _ _ _ Hv) as (_ & Hok).
  destruct (Hok Hu) as (Hc & _).
  exact (Hc "  Buenos dias.  " [] eq_refl).
Defined.

(** X3. A returned voice request adds to the log of network calls at most
    one call per provider, in the order transcription, chat, speech
    synthesis, and nothing else: the transcription call when the OpenAI key
    is set, the chat call when the transcript is usable, the synthesis
    request when the ElevenLabs key is set. The synthesis request carries
    the response text whatever it is, the "LLM unavailable" sentinel
    included. *)
Theorem one_call_per_provider (P : platform) (cfg : config)
  (filename audio_bytes : string) (language : option string) (w w' : world)
  (r : VoiceAgentResult) :
  voice_agent P cfg filename audio_bytes language w = (Ok r, w') ->
  net w'
  = net w
    ++ (if Py.truthy (OPENAI_API_KEY cfg)
        then [CallTranscribe "whisper-1" audio_bytes (lang_of language)]
        else [])
    ++ (if asr_usable (transcript r)
        then [CallChat (OPENAI_MODEL cfg)
                (chat_messages (transcript r) (lang_of language)) 500]
        else [])
    ++ (if Py.truthy (ELEVENLABS_API_KEY cfg)
        then [tts_call cfg (response_text r)
                (choose_voice_for_language cfg (lang_of language))]
        else []).
Proof.
  intros Hv. apply voice_agent_result in Hv as (_ & b & w4 & Hs & -> & ->).
  apply run_tts_effects in Hs as (_ & Hn & _).
  simpl. rewrite Hn. simpl. unfold asr_calls, llm_calls, tts_calls.
  rewrite <- !List.app_assoc. reflexivity.
Qed.

Lemma one_call_per_provider_witness :
  exists r w',
    voice_agent Sample.P_down Sample.cfg_keys "clip.wav" "RIFF" (Some "ES")
      Sample.w_empty = (Ok r, w')
    /\ net w'
       = [CallTranscribe "whisper-1" "RIFF" "es";
          tts_call Sample.cfg_keys
            "[LLM unavailable due to ASR error or missing config]" "Bella"].
Proof.
  destruct (voice_agent Sample.P_down Sample.cfg_keys "clip.wav" "RIFF"
              (Some "ES") Sample.w_empty) as [[r|e] w'] eqn:Hv;
    [|vm_compute in Hv; discriminate Hv].
  exists r, w'. split; [reflexivity|].
  rewrite (one_call_per_provider _ _ _ _ _ _ _ _ Hv).
  vm_compute in Hv. inversion Hv. reflexivity.
Defined.

(** X4. A returned voice request leaves no temporary file behind and
    touches no file other than its temporary file and its output file; it
    draws exactly two uuids. A file that was already at the temporary path
    is gone too. *)
Theorem voice_request_file_footprint (P : platform) (cfg : config)
  (filename audio_bytes : string) (language : option string) (w w' : world)
  (r : VoiceAgentResult) :
  voice_agent P cfg filename audio_bytes language w = (Ok r, w') ->
  files w' !! tmp_name_of P filename w = None
  /\ (forall path,
        path <> tmp_name_of P filename w -> path <> out_path_of P w ->
        files w' !! path = files w !! path)
  /\ draws w' = S (S (draws w)).
Proof.
  intros Hv. apply voice_agent_result in Hv as (_ & b & w4 & Hs & _ & ->).
  apply run_tts_effects in Hs as (Hd & _ & Hfr). simpl.
  split; [apply lookup_delete_eq|]. split; [|exact Hd].
  intros path Ht Ho. rewrite lookup_delete_ne by congruence.
  rewrite (Hfr path Ho). simpl. apply lookup_insert_ne. congruence.
Qed.

Lemma voice_request_file_footprint_witness :
  exists r w',
    voice_agent Sample.P_up Sample.cfg_keys "clip.wav" "RIFF" (Some "es")
      Cases.w_busy = (Ok r, w')
    /\ files w' !! "/tmp/00000000000000000000000000000007.wav" = None
    /\ files w' !! "static/index.html" = Some "<html>"
    /\ files w' !! SUBMISSIONS_FILE = Some "[]"
    /\ draws w' = 9.
Proof.
  destruct (voice_agent Sample.P_up Sample.cfg_keys "clip.wav" "RIFF"
              (Some "es") Cases.w_busy) as [[r|e] w'] eqn:Hv;
    [|vm_compute in Hv; discriminate Hv].
  exists r, w'. split; [reflexivity|].
  destruct (voice_request_file_footprint _ _ _ _ _ _ _ _ Hv) as (Ht & Hfr & Hd).
  split; [exact Ht|].
  split; [rewrite Hfr; [reflexivity|discriminate|discriminate]|].
  split; [rewrite Hfr; [reflexivity|discriminate|discriminate]|].
  exact Hd.
Defined.

(** X5. When the result of a voice request carries an audio URL, the file
    the URL names exists when the request returns and holds the whole body
    of a speech-synthesis response of status 200 whose stream ended without
    failure: the URL is [/static/] and the generated name, the file is
    [static/] and the same name. *)
Theorem audio_url_names_a_written_file (P : platform) (cfg : config)
  (filename audio_bytes : string) (language : option string) (w w' : world)
  (r : VoiceAgentResult) (url : string) :
  voice_agent P cfg filename audio_bytes language w = (Ok r, w') ->
  tts_audio_url r = Some url ->
  url = "/static/" +:+ out_filename_of P w
  /\ exists resp,
       tts_request P cfg (response_text r)
         (choose_voice_for_language cfg (lang_of language)) = Ok resp
       /\ status_code resp = 200
       /\ stream_error resp = None
       /\ files w' !! ("static/" +:+ out_filename_of P w) = Some (body_of resp).
Proof.
  intros Hv Hu. apply voice_agent_result in Hv as (_ & b & w4 & Hs & -> & ->).
  simpl in Hu. destruct b; [|discriminate]. inversion Hu. split; [reflexivity|].
  apply run_tts_true in Hs as (_ & _ & resp & Hr & Hst & Hse & Hf).
  exists resp. simpl. split; [exact Hr|]. split; [exact Hst|]. split; [exact Hse|].
  rewrite lookup_delete_ne by apply tmp_is_not_out. exact Hf.
Qed.

Lemma audio_url_names_a_written_file_witness :
  exists r w',
    voice_agent Sample.P_up Sample.cfg_keys "clip.wav" "RIFF" (Some "es")
      Sample.w_empty = (Ok r, w')
    /\ tts_audio_url r
       = Some "/static/generated_00000000000000000000000000000001.mp3"
    /\ files w' !! "static/generated_00000000000000000000000000000001.mp3"
       = Some "ID3mp3".
Proof.
  destruct (voice_agent Sample.P_up Sample.cfg_keys "clip.wav" "RIFF"
              (Some "es") Sample.w_empty) as [[r|e] w'] eqn:Hv;
    [|vm_compute in Hv; discriminate Hv].
  exists r, w'. split; [reflexivity|].
  assert (Hu : tts_audio_url r
               = Some "/static/generated_00000000000000000000000000000001.mp3").
  { vm_compute in Hv. inversion Hv. reflexivity. }
  split; [exact Hu|].
  destruct (audio_url_names_a_written_file _ _ _ _ _ _ _ _ _ Hv Hu)
    as (_ & resp & Hr & _ & _ & Hf).
  vm_compute in Hr. inversion Hr; subst resp. exact Hf.
Defined.

(** * Further properties of the provider wrappers *)

Lemma set_files_same (path old : string) (w : world) :
  files w !! path = Some old ->
  set_files (<[path := old]> (files w)) w = w.
Proof.
  intros H. rewrite insert_id by exact H. destruct w; reflexivity.
Qed.

Lemma f_write_end_fits (P : platform) (path old data : string) (w : world) :
  files w !! path = Some old ->
  fits P (old +:+ data) = true ->
  f_write P {| f_path := path; f_pos := String.length old |} data w
  = (Ok {| f_path := path; f_pos := String.length (old +:+ data) |},
     set_files (<[path := old +:+ data]> (files w)) w).
Proof.
  intros Hold Hfit. unfold f_write. simpl. rewrite Hold. simpl.
  rewrite str_take_all, (str_drop_all old) by lia.
  rewrite sapp_nil_r, <- slength_app.
  destruct (disk_room P) as [room|] eqn:Hr; [|reflexivity].
  rewrite (fits_room _ _ _ Hfit Hr). reflexivity.
Qed.

(** The loop over the chunks when the device has room for all of them:
    every chunk is in the file when the loop ends, whether it ends well or
    with the failure of the stream. *)
Lemma write_chunks_run (P : platform) (path : string) (err : option exn)
  (chunks : list string) :
  forall (old : string) (w : world),
  files w !! path = Some old ->
  fits P (old +:+ foldr String.append EmptyString chunks) = true ->
  write_chunks P {| f_path := path; f_pos := String.length old |} chunks err w
  = (match err with
     | Some e => Raise e
     | None =>
         Ok {| f_path := path;
               f_pos := String.length
                          (old +:+ foldr String.append EmptyString chunks) |}
     end,
     set_files
       (<[path := old +:+ foldr String.append EmptyString chunks]> (files w)) w).
Proof.
  induction chunks as [|chunk chunks IH]; intros old w Hold Hfit.
  - simpl. rewrite sapp_nil_r, (set_files_same _ _ _ Hold).
    destruct err; reflexivity.
  - simpl in Hfit. simpl write_chunks. rewrite bind_unfold.
    destruct (Py.truthy chunk) eqn:Ht.
    + rewrite (f_write_end_fits P path old chunk w Hold).
      2:{ refine (fits_shorter P _ _ _ Hfit). rewrite !slength_app. lia. }
      rewrite (IH (old +:+ chunk)).
      * simpl. rewrite insert_insert_eq, sapp_assoc. reflexivity.
      * simpl. apply lookup_insert_eq.
      * rewrite sapp_assoc. exact Hfit.
    + apply PyFacts.truthy_false in Ht. subst chunk.
      unfold mret, M_ret. rewrite sapp_nil_l in Hfit.
      rewrite (IH old w Hold Hfit). simpl. rewrite sapp_nil_l. reflexivity.
Qed.

(** X6. When the speech-synthesis provider answers 200 and its stream then
    fails, the wrapper returns false, and the output file, emptied when it
    was opened, is left holding the chunks that arrived before the failure:
    nothing removes the partial file. (The output file can be opened and
    the device has room for the body.) *)
Theorem broken_stream_leaves_partial_file (P : platform) (cfg : config)
  (text voice out_path : string) (w : world) (resp : response) (e : exn) :
  ELEVENLABS_API_KEY cfg <> EmptyString ->
  tts_request P cfg text voice = Ok resp ->
  status_code resp = 200 ->
  stream_error resp = Some e ->
  may_open P out_path = true ->
  fits P (body_of resp) = true ->
  exists w',
    run_tts_elevenlabs P cfg text voice out_path w = (Ok false, w')
    /\ files w' !! out_path = Some (body_of resp).
Proof.
  intros Hk Hr Hs He Hp Hfit.
  rewrite run_tts_call by exact Hk. rewrite Hr, Hs. simpl Nat.eqb. cbv iota.
  rewrite bind_unfold. unfold open_. rewrite (may_open_true _ _ Hp).
  rewrite (write_chunks_run P out_path (stream_error resp) (iter_content resp)
             EmptyString).
  - rewrite He. eexists. split; [reflexivity|]. simpl.
    rewrite sapp_nil_l. apply lookup_insert_eq.
  - simpl. apply lookup_insert_eq.
  - rewrite sapp_nil_l. exact Hfit.
Qed.

Lemma broken_stream_leaves_partial_file_witness :
  exists w',
    run_tts_elevenlabs Cases.P_cut Sample.cfg_keys "hola" "Bella"
      "static/out.mp3"
      {| files := {[ "static/out.mp3" := "an older recording" ]};
         net := []; draws := 0 |}
    = (Ok false, w')
    /\ files w' !! "static/out.mp3" = Some "ID3".
Proof.
  apply (broken_stream_leaves_partial_file Cases.P_cut Sample.cfg_keys "hola"
           "Bella" "static/out.mp3" _
           {| status_code := 200; iter_content := ["ID3"];
              stream_error := Some (Exception "Connection broken") |}
           (Exception "Connection broken") ltac:(discriminate)
           eq_refl eq_refl eq_refl eq_refl eq_refl).
Defined.

(** X7. When the wrapper has no key, when the request raises, when the
    status is not 200, or when the output file cannot be opened, the
    speech-synthesis wrapper returns false and leaves every file as it was:
    the output file is neither created nor emptied. *)
Theorem early_tts_failure_touches_no_file (P : platform) (cfg : config)
  (text voice out_path : string) (w : world) :
  ELEVENLABS_API_KEY cfg = EmptyString
  \/ (exists e, tts_request P cfg text voice = Raise e)
  \/ (exists resp, tts_request P cfg text voice = Ok resp
                   /\ status_code resp <> 200)
  \/ may_open P out_path = false ->
  exists w',
    run_tts_elevenlabs P cfg text voice out_path w = (Ok false, w')
    /\ files w' = files w.
Proof.
  intros Hfail.
  destruct (decide (ELEVENLABS_API_KEY cfg = EmptyString)) as [Hk|Hk].
  { rewrite run_tts_no_key by exact Hk. eauto. }
  rewrite run_tts_call by exact Hk.
  destruct (tts_request P cfg text voice) as [resp|e] eqn:Hr; [|eauto].
  destruct (status_code resp =? 200) eqn:Hs; [|eauto].
  apply Nat.eqb_eq in Hs.
  destruct Hfail as [Hk'|[[e He]|[(resp' & Hr' & Hs')|Hp]]]; try congruence.
  apply may_open_false in Hp as [msg Hp].
  rewrite bind_unfold. unfold open_. rewrite Hp. eauto.
Qed.

Lemma early_tts_failure_touches_no_file_witness :
  exists w',
    run_tts_elevenlabs Sample.P_401 Sample.cfg_keys "hola" "Bella"
      "static/out.mp3"
      {| files := {[ "static/out.mp3" := "an older recording" ]};
         net := []; draws := 0 |}
    = (Ok false, w')
    /\ files w' = {[ "static/out.mp3" := "an older recording" ]}.
Proof.
  apply (early_tts_failure_touches_no_file Sample.P_401 Sample.cfg_keys "hola"
           "Bella" "static/out.mp3").
  right; right; left. eexists. split; [reflexivity|]. simpl. discriminate.
Defined.

(** X8. With credentials, when the audio file is missing or cannot be
    opened, the speech-recognition wrapper returns the "ASR error" sentinel
    with the message of the operating system and calls no provider: the
    world, the log of network calls included, is unchanged. *)
Theorem unreadable_audio_is_an_asr_error (P : platform) (cfg : config)
  (path lang : string) (w : world) :
  OPENAI_API_KEY cfg <> EmptyString ->
  (forall msg, open_error P path = Some msg ->
     run_asr_local P cfg path lang w = (Ok ("[ASR error: " +:+ msg +:+ "]"), w))
  /\ (open_error P path = None -> files w !! path = None ->
      run_asr_local P cfg path lang w
      = (Ok ("[ASR error: [Errno 2] No such file or directory: '"
             +:+ path +:+ "']"), w)).
Proof.
  intros Hk. apply PyFacts.truthy_true in Hk.
  split.
  - intros msg Hm. unfold run_asr_local. rewrite Hk.
    change (negb true) with false. cbv beta iota.
    unfold try_except. rewrite bind_unfold. unfold open_. rewrite Hm.
    reflexivity.
  - intros Hm Hf. unfold run_asr_local. rewrite Hk.
    change (negb true) with false. cbv beta iota.
    unfold try_except. rewrite bind_unfold. unfold open_. rewrite Hm, Hf.
    unfold mret, M_ret, FileNotFoundError, str_exn.
    rewrite !sapp_assoc. reflexivity.
Qed.

Lemma unreadable_audio_is_an_asr_error_witness :
  run_asr_local Sample.P_up Sample.cfg_keys "/tmp/gone.wav" "en" Sample.w_empty
  = (Ok "[ASR error: [Errno 2] No such file or directory: '/tmp/gone.wav']",
     Sample.w_empty).
Proof.
  destruct (unreadable_audio_is_an_asr_error Sample.P_up Sample.cfg_keys
              "/tmp/gone.wav" "en" Sample.w_empty ltac:(discriminate))
    as (_ & H).
  exact (H eq_refl eq_refl).
Defined.

(** * Further properties of the contact store *)

Lemma f_write_start (P : platform) (path old data : string) (w : world) :
  files w !! path = Some old ->
  fits P (data +:+ str_drop (String.length data) old) = true ->
  f_write P {| f_path := path; f_pos := 0 |} data w
  = (Ok {| f_path := path; f_pos := String.length data |},
     set_files (<[path := data +:+ str_drop (String.length data) old]> (files w)) w).
Proof.
  intros Hold Hfit. unfold f_write. simpl. rewrite Hold. simpl.
  rewrite ?str_take_0, ?sapp_nil_l.
  destruct (disk_room P) as [room|] eqn:Hr; [|reflexivity].
  rewrite (fits_room _ _ _ Hfit Hr). reflexivity.
Qed.





(** X11. Whatever its outcome, a submission touches no file other than the
    submissions file, makes no network call and draws no uuid. *)
Theorem submission_footprint (P : platform) (name email : string)
  (plan message : option string) (w w' : world) (r : result json) :
  contact_submit P name email plan message w = (r, w') ->
  net w' = net w
  /\ draws w' = draws w
  /\ (forall path, path <> SUBMISSIONS_FILE -> files w' !! path = files w !! path).
Proof.
  rewrite contact_submit_cases.
  destruct (open_error P SUBMISSIONS_FILE); [intros H; inversion H; auto|].
  destruct (files w !! SUBMISSIONS_FILE); [|intros H; inversion H; auto].
  destruct (Json.loads _); [|intros H; inversion H; auto].
  destruct (py_append _ _); [|intros H; inversion H; auto].
  destruct (f_write P _ _ w) as [[f'|e] w1] eqn:Hw;
    apply f_write_frame in Hw as (Hn & Hd & Hfr & _);
    intros H; inversion H; subst; auto.
Qed.

Lemma submission_footprint_witness :
  files (snd (contact_submit Sample.P_up "Ana" "a@x.com" None None Cases.w_busy))
    !! "static/index.html" = Some "<html>"
  /\ draws (snd (contact_submit Sample.P_up "Ana" "a@x.com" None None
                   Cases.w_busy)) = 7.
Proof.
  destruct (contact_submit Sample.P_up "Ana" "a@x.com" None None Cases.w_busy)
    as [r w'] eqn:Hc.
  destruct (submission_footprint _ _ _ _ _ _ _ _ Hc) as (_ & Hd & Hfr).
  simpl. split; [rewrite Hfr; [reflexivity|discriminate]|exact Hd].
Defined.

Lemma f_write_ok_present (P : platform) (f f' : file) (data : string)
  (w w' : world) :
  f_write P f data w = (Ok f', w') -> is_Some (files w' !! f_path f).
Proof.
  unfold f_write.
  destruct (disk_room P) as [room|]; [destruct (room <? _)|];
    intros H; inversion H; subst; simpl; rewrite lookup_insert_eq; eauto.
Qed.

(** X12. Start-up never touches an existing submissions file, whatever it
    holds; and once start-up has succeeded, running it again changes
    nothing. *)
Theorem startup_keeps_existing_store (P : platform) (w : world) :
  (forall text, files w !! SUBMISSIONS_FILE = Some text ->
     ensure_submissions_file P w = (Ok tt, w))
  /\ (forall w1, ensure_submissions_file P w = (Ok tt, w1) ->
      ensure_submissions_file P w1 = (Ok tt, w1)).
Proof.
  assert (Hkeep : forall w0 text, files w0 !! SUBMISSIONS_FILE = Some text ->
            ensure_submissions_file P w0 = (Ok tt, w0)).
  { intros w0 text Hf. unfold ensure_submissions_file.
    rewrite bind_unfold. unfold os_path_exists. rewrite Hf.
    rewrite bool_decide_eq_true_2 by eauto. reflexivity. }
  split; [apply Hkeep|].
  intros w1 H.
  destruct (files w !! SUBMISSIONS_FILE) as [text|] eqn:Hf.
  - rewrite (Hkeep w text Hf) in H. inversion H; subst w1.
    apply (Hkeep w text Hf).
  - unfold ensure_submissions_file in H.
    rewrite bind_unfold in H. unfold os_path_exists in H. rewrite Hf in H.
    rewrite bool_decide_eq_false_2 in H by (intros [x Hx]; discriminate).
    change (negb false) with true in H. cbv iota in H.
    rewrite bind_unfold in H.
    destruct (open_ P SUBMISSIONS_FILE W w) as [[f|e] w0] eqn:Ho; [|discriminate].
    assert (Hpath : f_path f = SUBMISSIONS_FILE).
    { unfold open_ in Ho. destruct (open_error P SUBMISSIONS_FILE);
        inversion Ho; reflexivity. }
    rewrite bind_unfold in H.
    destruct (f_write P f _ w0) as [[f'|e] w2] eqn:Hw; [|discriminate].
    inversion H; subst w2.
    apply f_write_ok_present in Hw as [text Ht]. rewrite Hpath in Ht.
    apply (Hkeep w1 text Ht).
Qed.

Lemma startup_keeps_existing_store_witness :
  ensure_submissions_file Sample.P_up Sample.w_garbled = (Ok tt, Sample.w_garbled)
  /\ ensure_submissions_file Sample.P_up Sample.w_started
     = (Ok tt, Sample.w_started).
Proof.
  split.
  - destruct (startup_keeps_existing_store Sample.P_up Sample.w_garbled)
      as [H _].
    exact (H "not json" eq_refl).
  - destruct (startup_keeps_existing_store Sample.P_up Sample.w_empty)
      as [_ H].
    exact (H Sample.w_started eq_refl).
Defined.

Lemma stored_length_app (cs l : list Contact) :
  String.length (stored l) <= String.length (stored (l ++ cs)).
Proof.
  revert l. induction cs as [|c cs IH]; intros l.
  - rewrite app_nil_r. lia.
  - pose proof (StoreFacts.stored_length_mono l c) as H1.
    pose proof (IH (l ++ [c])) as H2.
    rewrite <- List.app_assoc in H2. simpl in H2. lia.
Qed.



(** * Further properties of paths and of the configuration *)

Lemma contains_drop (c : ascii) (n : nat) (s : string) :
  Py.contains c s = false -> Py.contains c (str_drop n s) = false.
Proof.
  revert n. induction s as [|a s IH]; intros n H.
  - destruct n; reflexivity.
  - destruct n; [exact H|]. simpl in *.
    destruct (Ascii.eqb a c); [discriminate|]. apply IH, H.
Qed.

Lemma str_drop_add (a b : nat) (s : string) :
  str_drop (a + b) s = str_drop b (str_drop a s).
Proof.
  revert s. induction a as [|a IH]; intros s; [reflexivity|].
  destruct s as [|x s]; simpl.
  - destruct b; reflexivity.
  - apply IH.
Qed.

Lemma str_drop_next (n : nat) (s t : string) (c : ascii) :
  str_drop n s = String c t -> str_drop (S n) s = t.
Proof.
  revert s. induction n as [|n IH]; intros s H.
  - simpl in H. subst s. reflexivity.
  - destruct s as [|x s]; [discriminate|]. simpl in *. apply IH, H.
Qed.

(** [rfind]: either the character does not occur and the result is the
    value given for that case, or the result is the index of an occurrence
    after which the character does not occur again. *)
Lemma rfind_from_spec (c : ascii) (s : string) :
  forall (i found : Z),
  let r := rfind_from c s i found in
  (r = found /\ Py.contains c s = false)
  \/ ((i <= r)%Z
      /\ exists t, str_drop (Z.to_nat (r - i)) s = String c t
                   /\ Py.contains c t = false).
Proof.
  induction s as [|a s IH]; intros i found r.
  - left. split; reflexivity.
  - subst r. simpl rfind_from.
    destruct (IH (i + 1)%Z (if Ascii.eqb a c then i else found))
      as [[Hr Hc]|(Hle & t & Ht & Hc)].
    + rewrite Hr. destruct (Ascii.eqb a c) eqn:E.
      * right. split; [lia|]. apply Ascii.eqb_eq in E. subst a.
        exists s. rewrite Z.sub_diag. split; [reflexivity|exact Hc].
      * left. split; [reflexivity|]. simpl. rewrite E. exact Hc.
    + right. split; [lia|]. exists t. split; [|exact Hc].
      set (r := rfind_from c s (i + 1)%Z _) in *.
      replace (Z.to_nat (r - i)) with (S (Z.to_nat (r - (i + 1)))) by lia.
      exact Ht.
Qed.

Lemma splitext_loop_snd (p : string) (n i d : nat) (r : string * string) :
  splitext_loop p n i d = Some r -> snd r = str_drop d p.
Proof.
  revert i. induction n as [|n IH]; intros i; simpl; [discriminate|].
  destruct (i <? d); [|discriminate].
  destruct (negb _).
  - intros H. inversion H. reflexivity.
  - apply IH.
Qed.

(** The extension that [os.path.splitext] returns is empty or starts with a
    dot, and has no path separator in it. *)
Lemma splitext_ext (p : string) :
  snd (os_path_splitext p) = EmptyString
  \/ (exists t, snd (os_path_splitext p) = String "." t)
     /\ Py.contains "/" (snd (os_path_splitext p)) = false.
Proof.
  unfold os_path_splitext.
  destruct (rfind "/" p <? rfind "." p)%Z eqn:Hlt; [|left; reflexivity].
  apply Z.ltb_lt in Hlt.
  destruct (splitext_loop p _ _ _) as [r|] eqn:Hl; [|left; reflexivity].
  apply splitext_loop_snd in Hl. rewrite Hl. right.
  unfold rfind in *.
  destruct (rfind_from_spec "." p 0 (-1)) as [[Hd _]|(Hd0 & t & Ht & _)].
  { destruct (rfind_from_spec "/" p 0 (-1)) as [[Hs _]|(Hs0 & _)]; lia. }
  rewrite Z.sub_0_r in Ht. split; [exists t; exact Ht|].
  destruct (rfind_from_spec "/" p 0 (-1)) as [[_ Hs]|(Hs0 & u & Hu & Hc)].
  - apply contains_drop, Hs.
  - rewrite Z.sub_0_r in Hu. apply str_drop_next in Hu.
    set (d := rfind_from "." p 0 (-1)) in *.
    set (sl := rfind_from "/" p 0 (-1)) in *.
    replace (Z.to_nat d) with (S (Z.to_nat sl) + (Z.to_nat d - S (Z.to_nat sl)))
      by lia.
    rewrite str_drop_add, Hu. apply contains_drop, Hc.
Qed.

(** X14. The temporary file of an upload is [/tmp/], the 32 hexadecimal
    digits drawn, and an extension taken from the uploaded file name; that
    extension starts with a dot and has no [/] in it, whatever the file
    name is, so the file name of the client cannot move the temporary file
    to another directory. When the file name has no extension, the
    extension is [.wav]. *)
Theorem upload_suffix_is_an_extension (P : platform) (filename : string)
  (w : world) :
  tmp_name_of P filename w
  = "/tmp/" +:+ uuid4_hex P (draws w) +:+ upload_suffix filename
  /\ Py.startswith (upload_suffix filename) "." = true
  /\ Py.contains "/" (upload_suffix filename) = false
  /\ (snd (os_path_splitext filename) = EmptyString ->
      upload_suffix filename = ".wav").
Proof.
  split; [reflexivity|]. unfold upload_suffix.
  destruct (splitext_ext filename) as [He|[[t Ht] Hc]].
  - rewrite He. repeat split; reflexivity.
  - rewrite Ht in *.
    change (Py.or_else (String "."%char t) ".wav") with (String "."%char t).
    split; [destruct t; reflexivity|].
    split; [exact Hc|]. discriminate.
Qed.

Lemma upload_suffix_is_an_extension_witness :
  upload_suffix "notes.d/recording" = ".wav"
  /\ tmp_name_of Sample.P_up "notes.d/recording" Sample.w_empty
     = "/tmp/00000000000000000000000000000000.wav".
Proof.
  destruct (upload_suffix_is_an_extension Sample.P_up "notes.d/recording"
              Sample.w_empty) as (Ht & _ & _ & H).
  split; [exact (H eq_refl)|]. rewrite Ht, (H eq_refl). reflexivity.
Defined.

Lemma getenv_in (env : environ) (k d v : string) :
  getenv env k d = v -> v = d \/ (k, v) ∈ env.
Proof.
  induction env as [|[k' v'] env IH]; simpl; intros H.
  - left. congruence.
  - destruct (String.eqb k' k) eqn:E.
    + apply String.eqb_eq in E. subst. right. left.
    + destruct (IH H) as [Hd|Hin]; [left; exact Hd|right; right; exact Hin].
Qed.

(** X15. The voice map never holds an empty voice: a [VOICE_] variable
    with an empty value is skipped by the loader. Hence, for a
    configuration loaded from the environment, the voice selected for any
    language tag is not empty, unless the variable [ELEVENLABS_VOICE] itself
    is set to the empty string. *)
Theorem selected_voice_is_not_empty (env : environ) (lang : string) :
  (forall key voice,
     VOICE_MAP (load_config env) !! key = Some voice -> voice <> EmptyString)
  /\ (("ELEVENLABS_VOICE", EmptyString) ∉ env ->
      choose_voice_for_language (load_config env) lang <> EmptyString).
Proof.
  assert (Hmap : forall key voice,
            VOICE_MAP (load_config env) !! key = Some voice ->
            voice <> EmptyString).
  { intros key voice H. simpl in H. unfold _load_voice_map in H.
    apply load_fold_origin in H as [H|[_ H]]; [|exact H].
    rewrite lookup_empty in H. discriminate. }
  split; [exact Hmap|].
  intros Hd.
  assert (Hdef : ELEVENLABS_VOICE_DEFAULT (load_config env) <> EmptyString).
  { simpl. intros He. apply getenv_in in He as [He|He]; [discriminate|].
    exact (Hd He). }
  destruct (choose_voice_cases (load_config env) lang) as [H|[H|[_ H]]].
  - rewrite H. exact Hdef.
  - exact (Hmap _ _ H).
  - exact (Hmap _ _ H).
Qed.

Lemma selected_voice_is_not_empty_witness :
  choose_voice_for_language
    (load_config [("VOICE_en", ""); ("VOICE_fr", "Amelie")]) "en"
  <> EmptyString.
Proof.
  destruct (selected_voice_is_not_empty
              [("VOICE_en", ""); ("VOICE_fr", "Amelie")] "en") as [_ H].
  apply H. apply (bool_decide_unpack _). vm_compute. exact I.
Defined.

Lemma load_fold_filter (env : environ) (voices : gmap string string) :
  foldl load_step voices env = foldl load_step voices (List.filter voice_variable env).
Proof.
  revert voices. induction env as [|[k v] env IH]; intros voices; [reflexivity|].
  assert (Hs : voice_variable (k, v) = false -> load_step voices (k, v) = voices).
  { unfold voice_variable, load_step. simpl fst. simpl snd. intros E. rewrite E.
    reflexivity. }
  change (foldl load_step voices ((k, v) :: env))
    with (foldl load_step (load_step voices (k, v)) env).
  change (List.filter voice_variable ((k, v) :: env))
    with (if voice_variable (k, v) then (k, v) :: List.filter voice_variable env
          else List.filter voice_variable env).
  destruct (voice_variable (k, v)).
  - apply IH.
  - rewrite Hs by reflexivity. apply IH.
Qed.

(** X16. The voice map depends only on the variables whose name starts
    with [VOICE_] and whose value is not empty: all other variables of the
    environment, the credentials included, have no effect on it; and with
    no such variable the map is empty, so every language is given the
    default voice. *)
Theorem loader_ignores_other_variables (env : environ) :
  _load_voice_map env = _load_voice_map (List.filter voice_variable env)
  /\ (List.filter voice_variable env = [] ->
      forall lang,
        choose_voice_for_language (load_config env) lang
        = ELEVENLABS_VOICE_DEFAULT (load_config env)).
Proof.
  split; [apply load_fold_filter|].
  intros Hnone lang.
  assert (Hm : VOICE_MAP (load_config env) = ∅).
  { simpl. unfold _load_voice_map. rewrite load_fold_filter, Hnone. reflexivity. }
  destruct (choose_voice_cases (load_config env) lang) as [H|[H|[_ H]]];
    [exact H|rewrite Hm, lookup_empty in H; discriminate..].
Qed.

Lemma loader_ignores_other_variables_witness :
  choose_voice_for_language
    (load_config [("OPENAI_API_KEY", "sk-test"); ("VOICE", "Adam");
                  ("voice_en", "Adam"); ("VOICE_en", "")]) "en"
  = "Bella".
Proof.
  destruct (loader_ignores_other_variables
              [("OPENAI_API_KEY", "sk-test"); ("VOICE", "Adam");
               ("voice_en", "Adam"); ("VOICE_en", "")]) as [_ H].
  exact (H eq_refl "en").
Defined.

(** * The text of the stored file *)

Lemma plain_app (s t : string) :
  plain_text (s +:+ t) = plain_text s && plain_text t.
Proof.
  induction s as [|a s IH]; [reflexivity|].
  simpl. rewrite IH, andb_assoc. reflexivity.
Qed.

Lemma plain_escape_char (a : ascii) : plain_text (escape_char a) = true.
Proof.
  destruct a as [b0 b1 b2 b3 b4 b5 b6 b7].
  destruct b0, b1, b2, b3, b4, b5, b6, b7; vm_compute; reflexivity.
Qed.

Lemma plain_escape (s : string) : plain_text (escape s) = true.
Proof.
  induction s as [|a s IH]; [reflexivity|].
  simpl escape. rewrite plain_app, plain_escape_char, IH. reflexivity.
Qed.

Lemma plain_encode_string (s : string) : plain_text (encode_string s) = true.
Proof.
  unfold encode_string.
  change (String dquote (escape s +:+ String dquote ""))
    with (String dquote "" +:+ escape s +:+ String dquote "").
  rewrite !plain_app, plain_escape. reflexivity.
Qed.

Lemma plain_spaces (n : nat) : plain_text (spaces n) = true.
Proof. induction n as [|n IH]; [reflexivity|exact IH]. Qed.

Lemma plain_newline_indent (lvl : nat) :
  plain_text (newline_indent (Some 2) lvl) = true.
Proof. unfold newline_indent. simpl plain_text. apply plain_spaces. Qed.

Lemma plain_opt_str (lvl : nat) (o : option string) :
  plain_text (encode (Some 2) lvl (opt_str o)) = true.
Proof. destruct o; [apply plain_encode_string|reflexivity]. Qed.

Lemma plain_concat (sep : string) (xs : list string) :
  plain_text sep = true ->
  (forall x, x ∈ xs -> plain_text x = true) ->
  plain_text (String.concat sep xs) = true.
Proof.
  intros Hsep. induction xs as [|x xs IH]; intros Hx; [reflexivity|].
  assert (plain_text x = true) by (apply Hx; left).
  destruct xs as [|y xs]; [assumption|].
  change (String.concat sep (x :: y :: xs))
    with (x +:+ sep +:+ String.concat sep (y :: xs)).
  rewrite !plain_app, H, Hsep, IH; [reflexivity|].
  intros z Hz. apply Hx. right. exact Hz.
Qed.

Lemma plain_record_text (c : Contact) : plain_text (record_text c) = true.
Proof.
  unfold record_text, to_json, contact_entry.
  change (encode (Some 2) 1 _)
    with ("{" +:+ newline_indent (Some 2) 2
          +:+ String.concat ("," +:+ newline_indent (Some 2) 2)
                [encode_string "name" +:+ ": " +:+ encode_string (name c);
                 encode_string "email" +:+ ": " +:+ encode_string (email c);
                 encode_string "plan" +:+ ": "
                 +:+ encode (Some 2) 2 (opt_str (plan c));
                 encode_string "message" +:+ ": "
                 +:+ encode (Some 2) 2 (opt_str (message c))]
          +:+ newline_indent (Some 2) 1 +:+ "}").
  rewrite !plain_app, !plain_newline_indent, plain_concat; [reflexivity| |].
  - rewrite plain_app, plain_newline_indent. reflexivity.
  - intros x Hx.
    repeat (apply elem_of_cons in Hx as [->|Hx]);
      [| | | |inversion Hx];
      rewrite !plain_app, ?plain_encode_string, ?plain_opt_str; reflexivity.
Qed.

(** The text that the handler writes holds printable ASCII and line feeds
    only. *)
Lemma plain_stored (l : list Contact) : plain_text (stored l) = true.
Proof.
  destruct l as [|c l]; [reflexivity|].
  rewrite StoreFacts.stored_cons, !plain_app, !plain_newline_indent.
  rewrite plain_concat; [reflexivity| |].
  - unfold record_sep. rewrite plain_app, plain_newline_indent. reflexivity.
  - intros x Hx. apply StoreFacts.elem_of_map in Hx as [c' [-> _]].
    apply plain_record_text.
Qed.


